(** * ale.aos: a shallow embedding of the CLI plugin and its command module

    The development follows the Python sources:
    - [plugins/module_utils/network/aos/utils/utils.py]   (module [Utils])
    - [plugins/cliconf/aos.py]                            (module [Cliconf])
    - [plugins/module_utils/network/aos/aos.py]           (module [ModuleUtils])
    - [plugins/modules/aos_command.py]                    (module [AosCommand])

    Python exceptions are values of [exn]; a function that can raise
    returns [exn + A].  The connection to the switch is an explicit state
    that every transport call threads and records into. *)

From Stdlib Require Import ZArith String Ascii List Bool Lia.
From stdpp Require Import base decidable option list sorting gmap strings.

Open Scope string_scope.
Open Scope Z_scope.

(** ** Python built-ins used by the sources *)

Module Py.

(** Exceptions the sources raise or let escape. *)
Inductive exn : Type :=
| ValueError (msg : string)
| NameError (name : string)
| KeyError (key : string)
| AttributeError (msg : string)
| IndexError (msg : string)
| AnsibleConnectionFailure (err : option string) (message : string).

(** [d[key]] on a dict literal written as an association list *)
Fixpoint getitem {V} (d : list (string * V)) (key : string) : exn + V :=
  match d with
  | [] => inl (KeyError key)
  | (k, v) :: d' => if String.eqb k key then inr v else getitem d' key
  end.

(** [x in l] for a string and a list of strings *)
Definition mem (x : string) (l : list string) : bool :=
  existsb (String.eqb x) l.

(** Code that may raise and has no other effect. *)
#[global] Instance exn_ret : MRet (sum exn) := fun A a => inr a.

#[global] Instance exn_bind : MBind (sum exn) := fun A B k m =>
  match m with
  | inr a => k a
  | inl e => inl e
  end.

(** Truth value of an optional string: [None] and the empty string are
    false. *)
Definition truthy_str (x : option string) : bool :=
  match x with
  | Some s => negb (String.eqb s "")
  | None => false
  end.

(** [str(x)] of an optional string: [None] prints as its name. *)
Definition str_of_option (x : option string) : string :=
  match x with Some s => s | None => "None" end.

(** [s.startswith(p)] *)
Definition startswith (s p : string) : bool := String.prefix p s.

(** [s.endswith(p)] *)
Definition endswith (s p : string) : bool :=
  let n := String.length s in
  let k := String.length p in
  if (k <=? n)%nat then String.eqb (String.substring (n - k) k s) p else false.

(** [p in s] for two strings *)
Fixpoint contains (p s : string) : bool :=
  String.prefix p s ||
  match s with
  | EmptyString => false
  | String _ s' => contains p s'
  end.

(** [c.isspace()] on the code points below 256 *)
Definition isspace (c : ascii) : bool :=
  let n := nat_of_ascii c in
  ((9 <=? n) && (n <=? 13) || (28 <=? n) && (n <=? 32)
   || (n =? 133) || (n =? 160))%nat.

Fixpoint lstrip (s : string) : string :=
  match s with
  | String c s' => if isspace c then lstrip s' else s
  | EmptyString => EmptyString
  end.

Fixpoint rstrip (s : string) : string :=
  match s with
  | EmptyString => EmptyString
  | String c s' =>
      match rstrip s' with
      | EmptyString => if isspace c then EmptyString else String c EmptyString
      | t => String c t
      end
  end.

(** [s.strip()] *)
Definition strip (s : string) : string := rstrip (lstrip s).

(** [sep.join(l)] *)
Definition join (sep : string) (l : list string) : string := String.concat sep l.

(** [s.split(sep)] for a one character separator: never an empty list. *)
Fixpoint split (sep : ascii) (s : string) : list string :=
  match s with
  | EmptyString => [EmptyString]
  | String c s' =>
      if Ascii.eqb c sep then EmptyString :: split sep s'
      else match split sep s' with
           | w :: ws => String c w :: ws
           | [] => [String c EmptyString]
           end
  end.

Definition digit_value (c : ascii) : option Z :=
  let n := nat_of_ascii c in
  if ((48 <=? n) && (n <=? 57))%nat then Some (Z.of_nat n - 48) else None.

(** The digits of an integer literal, most significant first; a single
    underscore may separate two digits. [after_digit] tells whether the
    previous character was a digit. *)
Fixpoint int_digits (acc : Z) (after_digit : bool) (s : string) : option Z :=
  match s with
  | EmptyString => if after_digit then Some acc else None
  | String c s' =>
      match digit_value c with
      | Some d => int_digits (10 * acc + d) true s'
      | None =>
          if Ascii.eqb c "_" && after_digit
          then match s' with
               | String c' _ =>
                   match digit_value c' with
                   | Some _ => int_digits acc false s'
                   | None => None
                   end
               | EmptyString => None
               end
          else None
      end
  end.

(** The white space [int] takes off both ends of its text: that of
    [str.strip] but for the four separators 28 to 31. *)
Definition int_space (c : ascii) : bool :=
  let n := nat_of_ascii c in
  ((9 <=? n) && (n <=? 13) || (n =? 32) || (n =? 133) || (n =? 160))%nat.

Fixpoint int_lstrip (s : string) : string :=
  match s with
  | String c s' => if int_space c then int_lstrip s' else s
  | EmptyString => EmptyString
  end.

Fixpoint int_rstrip (s : string) : string :=
  match s with
  | EmptyString => EmptyString
  | String c s' =>
      match int_rstrip s' with
      | EmptyString => if int_space c then EmptyString else String c EmptyString
      | t => String c t
      end
  end.

(** [int(s)] in base 10: surrounding white space, an optional sign, then
    digits. [None] stands for the [ValueError] Python raises. *)
Definition int (s : string) : option Z :=
  match int_rstrip (int_lstrip s) with
  | String "-" t => Z.opp <$> int_digits 0 false t
  | String "+" t => int_digits 0 false t
  | t => int_digits 0 false t
  end.

(** [list(range(a, b))] *)
Definition range (a b : Z) : list Z :=
  (fun i => a + Z.of_nat i) <$> seq 0 (Z.to_nat (b - a)).

(** [l.remove(x)]: drops the first element equal to [x]; [None] stands
    for the [ValueError] raised when there is none. *)
Fixpoint remove {A} (eqb : A -> A -> bool) (x : A) (l : list A) : option (list A) :=
  match l with
  | [] => None
  | y :: l' => if eqb y x then Some l' else cons y <$> remove eqb x l'
  end.

(** [to_list(x)] of the network utilities on an optional list. *)
Definition to_list {A} (x : option (list A)) : list A := default [] x.

(** [c.isdigit()] on the code points below 256: the ten ASCII digits and
    the superscript digits one, two and three. *)
Definition isdigit (c : ascii) : bool :=
  let n := nat_of_ascii c in
  ((48 <=? n) && (n <=? 57) || (n =? 178) || (n =? 179) || (n =? 185))%nat.

(** [c in chars] for a character [c] *)
Fixpoint char_in (c : ascii) (chars : string) : bool :=
  match chars with
  | EmptyString => false
  | String d chars' => Ascii.eqb c d || char_in c chars'
  end.

(** [s.rstrip(chars)] *)
Fixpoint rstrip_chars (chars : string) (s : string) : string :=
  match s with
  | EmptyString => EmptyString
  | String c s' =>
      match rstrip_chars chars s' with
      | EmptyString => if char_in c chars then EmptyString else String c EmptyString
      | t => String c t
      end
  end.

Definition hex_digit (n : nat) : ascii :=
  nth n (list_ascii_of_string "0123456789abcdef") "0"%char.

(** How [repr] writes one character of a text quoted with [quote]. *)
Definition repr_char (quote c : ascii) : string :=
  let n := nat_of_ascii c in
  if Ascii.eqb c quote || Ascii.eqb c "\" then String "\" (String c "")
  else if (n =? 9)%nat then "\t"
  else if (n =? 10)%nat then "\n"
  else if (n =? 13)%nat then "\r"
  else if ((n <? 32) || (n =? 127) || (128 <=? n) && (n <=? 160) || (n =? 173))%nat
  then String "\" (String "x" (String (hex_digit (n / 16)) (String (hex_digit (n mod 16)) "")))
  else String c "".

(** [repr(s)] of a text on the code points below 256: between single
    quotes, or between double quotes when the text holds a single quote
    and no double quote. *)
Definition repr (s : string) : string :=
  let quote : ascii :=
    if char_in "'" s && negb (char_in "034" s) then "034"%char else "'"%char in
  String quote
    (String.concat "" (repr_char quote <$> list_ascii_of_string s) ++ String quote "").

End Py.

(** ** utils.py *)

Module Utils.
Import Py.

(** The [for char in name] loop of [get_interface_number]; [digits] is
    the text built so far. *)
Fixpoint get_interface_number_loop (name digits : string) : string :=
  match name with
  | EmptyString => digits
  | String char rest =>
      if isdigit char || char_in char "/."
      then get_interface_number_loop rest (digits ++ String char "")
      else get_interface_number_loop rest digits
  end.

Definition get_interface_number (name : string) : string :=
  get_interface_number_loop name "".

(** The [vlans] argument: [None], a string, or a list of strings. *)
Inductive vlans_arg : Type :=
| VNone
| VStr (s : string)
| VList (l : list string).

(** Truth value of the argument, as [if vlans:] takes it. *)
Definition truthy (v : vlans_arg) : bool :=
  match v with
  | VNone => false
  | VStr s => negb (String.eqb s "")
  | VList l => match l with [] => false | _ => true end
  end.

Definition int_or_raise (s : string) : exn + Z :=
  match int s with
  | Some z => inr z
  | None => inl (ValueError ("invalid literal for int() with base 10: "
                             ++ String.substring 0 200 (repr s)))
  end.

(** [numerical_sort]: the list is sorted in place, and the value returned
    is [list(set(as_int_list))]. Python leaves the iteration order of a
    set open; [set_order] is that order. *)
Definition numerical_sort (set_order : list Z -> list Z) (string_int_list : list Z)
  : list Z :=
  let as_int_list := merge_sort Z.le string_int_list in
  set_order as_int_list.

(** The [for part in vlans] loop; [result] is the accumulator. *)
Fixpoint vlan_parts (parts : list string) (result : list Z) : exn + list Z :=
  match parts with
  | [] => inr result
  | part :: rest =>
      if String.eqb part "none" then inr result
      else if contains "-" part then
        match split "-" part with
        | [a; b] =>
            match int_or_raise a with
            | inl e => inl e
            | inr a =>
                match int_or_raise b with
                | inl e => inl e
                | inr b => vlan_parts rest (result ++ range a (b + 1))
                end
            end
        | _ => inl (ValueError "too many values to unpack (expected 2)")
        end
      else
        match int_or_raise part with
        | inl e => inl e
        | inr a => vlan_parts rest (result ++ [a])
        end
  end.

Definition vlan_range_to_list (set_order : list Z -> list Z) (vlans : vlans_arg)
  : exn + list Z :=
  if truthy vlans then
    let parts := match vlans with
                 | VStr s => split "," s
                 | VList l => l
                 | VNone => []
                 end in
    match vlan_parts parts [] with
    | inl e => inl e
    | inr result => inr (numerical_sort set_order result)
    end
  else inr [].

(** What Python promises of [list(set(l))]: the elements of [l], each
    once, in an order of the implementation's choosing. *)
Definition set_contract (set_order : list Z -> list Z) : Prop :=
  forall l, NoDup (set_order l) /\ forall x, x ∈ set_order l <-> x ∈ l.

(** CPython keeps a small integer [k] in slot [hash(k) & mask] of the
    table, [hash(k) = k], and a new set has 8 slots; iteration walks the
    slots. While the keys neither collide nor make the table grow (fewer
    than five keys, pairwise distinct modulo 8), [list(set(l))] therefore
    lists the keys by [k mod 8]. Keys of one slot are left in the order
    of [l]. *)
Definition slot_le (a b : Z) : Prop := a mod 8 <= b mod 8.

#[global] Instance slot_le_dec (a b : Z) : Decision (slot_le a b).
Proof. unfold slot_le. apply _. Defined.

Definition cpython_small_set (l : list Z) : list Z :=
  merge_sort slot_le (remove_dups l).

End Utils.

(** ** cliconf/aos.py *)

Module Cliconf.
Import Py.

(** A command as the plugin receives it: the keyword arguments of
    [send_command], with the [output] and [version] keys that
    [run_commands] pops before sending. A key that is absent and a key
    bound to [None] are both [None]. *)
Record command_dict : Type := {
  command : string;
  output : option string;
  version : option string;
  prompt : option (list string);
  answer : option (list string);
  newline : option bool;
  sendonly : option bool;
  check_all : option bool
}.

#[global] Instance command_dict_eq_dec : EqDecision command_dict.
Proof. solve_decision. Defined.

(** [{"command": cmd}] *)
Definition of_command (cmd : string) : command_dict :=
  {| command := cmd; output := None; version := None; prompt := None;
     answer := None; newline := None; sendonly := None; check_all := None |}.

(** An element of the [commands] list: a mapping or a bare string. *)
Inductive cmd_arg : Type :=
| CmdStr (s : string)
| CmdMap (d : command_dict).

(** The device behind [send_command]: it answers with text or raises,
    and moves to a new state. *)
Class Transport (D : Type) : Type :=
  send_command_on : command_dict -> D -> (exn + string) * D.

(** The plugin's connection: the device and the calls made on it so far,
    oldest first. *)
Record connection (D : Type) : Type := {
  device : D;
  sent : list command_dict
}.
Arguments device {D} _.
Arguments sent {D} _.

(** Methods of the plugin: they may raise and they use the connection. *)
Definition M (D A : Type) : Type := connection D -> (exn + A) * connection D.

#[global] Instance M_ret {D} : MRet (M D) := fun A a c => (inr a, c).

#[global] Instance M_bind {D} : MBind (M D) := fun A B k m c =>
  match m c with
  | (inr a, c') => k a c'
  | (inl e, c') => (inl e, c')
  end.

Definition raise {D A} (e : exn) : M D A := fun c => (inl e, c).

(** A computation that does not touch the connection. *)
Definition lift {D A} (r : exn + A) : M D A := fun c => (r, c).

(** [try: m except AnsibleConnectionFailure as e: h e] *)
Definition catch_connection_failure {D A}
    (m : M D A) (h : option string -> string -> M D A) : M D A :=
  fun c => match m c with
           | (inl (AnsibleConnectionFailure err message), c') => h err message c'
           | r => r
           end.

Definition send_command {D} `{Transport D} (kwargs : command_dict) : M D string :=
  fun c => let '(r, d) := send_command_on kwargs (device c) in
           (r, {| device := d; sent := sent c ++ [kwargs] |}).

Definition get_device_operations : list (string * bool) :=
  [ ("supports_diff_replace", false);
    ("supports_commit", false);
    ("supports_rollback", false);
    ("supports_defaults", false);
    ("supports_onbox_diff", false);
    ("supports_commit_comment", false);
    ("supports_multiline_delimiter", false);
    ("supports_diff_match", false);
    ("supports_diff_ignore_lines", false);
    ("supports_generate_diff", false);
    ("supports_replace", false) ].

Definition get_option_values : list (string * list string) :=
  [ ("format", ["text"; "json"]);
    ("diff_match", ["line"; "strict"; "exact"; "none"]);
    ("diff_replace", ["line"; "block"; "config"]);
    ("output", ["text"; "json"]) ].

Definition _get_command_with_output
    (command output : string) (version : option string) : exn + string :=
  match getitem get_option_values "output" with
  | inl e => inl e
  | inr values =>
      if negb (mem output values) then
        inl (ValueError ("'output' value " ++ output ++ " is invalid. Valid values are "
                         ++ join "," values))
      else
        let cmd := if String.eqb output "json" && negb (endswith command "| json")
                   then command ++ " | json" else command in
        let cmd := if negb (bool_decide (version = Some "latest")) && contains "| json" cmd
                   then cmd ++ " version " ++ str_of_option version else cmd in
        inr cmd
  end.

(** [json.loads]: the parsed document, or [None] for the [ValueError]
    raised on text that is not JSON. *)
Class JsonLoads (J : Type) : Type := json_loads : string -> option J.

(** An entry of the list [run_commands] returns. *)
Inductive response (J : Type) : Type :=
| RJson (j : J)
| RText (s : string).
Arguments RJson {J} _.
Arguments RText {J} _.

(** The [NetworkConfig] class of the network utilities and [dumps]:
    [load candidate] is the items of [NetworkConfig(indent=3)] after
    [load(candidate)]; [difference items running ignore_lines path match
    replace] compares them with [NetworkConfig(indent=3, contents=running,
    ignore_lines=...)]; [dumps items output] renders items. *)
Class NetworkConfig (I : Type) : Type := {
  load : option string -> list I;
  difference : list I -> string -> option (list string) -> option (list string)
               -> string -> string -> list I;
  dumps : list I -> string -> string
}.

(** The dict [get_diff] returns. *)
Record diff : Type := { config_diff : string }.

Section Methods.
Context {D J I : Type} `{!Transport D} `{!JsonLoads J} `{!NetworkConfig I}.

Definition get_config (source : string) (flags : option (list string))
    (format : string) : M D string :=
  options_values ← lift (getitem get_option_values "format");
  if negb (mem format options_values) then
    raise (ValueError ("'format' value " ++ format ++ " is invalid. Valid values are "
                       ++ join "," options_values))
  else
    let lookup := [ ("running", "show configuration snapshot");
                    ("startup", "cat working/vcsetup.cfg") ] in
    if negb (mem source (lookup.*1)) then
      raise (ValueError ("fetching configuration from " ++ source ++ " is not supported"))
    else
      base ← lift (getitem lookup source);
      let cmd := base ++ " " in
      let cmd := if negb (String.eqb format "") && negb (String.eqb format "text")
                 then cmd ++ "| " ++ format ++ " " else cmd in
      let cmd := cmd ++ join " " (to_list flags) in
      let cmd := strip cmd in
      send_command (of_command cmd).

(** The dict left in [cmd] once [output] and [version] are popped and
    [command] is rebound. *)
Definition with_command (cmd : command_dict) (c : string) : command_dict :=
  {| command := c; output := None; version := None; prompt := prompt cmd;
     answer := answer cmd; newline := newline cmd; sendonly := sendonly cmd;
     check_all := check_all cmd |}.

(** The text a command is sent with: [_get_command_with_output] when
    its [output] is set, the command as it is otherwise. *)
Definition command_text (cmd : command_dict) : exn + string :=
  if truthy_str (output cmd)
  then _get_command_with_output (command cmd) (default "" (output cmd)) (version cmd)
  else inr (command cmd).

(** [cmd] as a mapping: a bare string [s] becomes [{"command": s}]. *)
Definition as_dict (cmd : cmd_arg) : command_dict :=
  match cmd with CmdStr s => of_command s | CmdMap d => d end.

(** The entry made of a text [out]: [json.loads(out)], or
    [out.strip()] when [out] is not JSON. *)
Definition entry (out : string) : response J :=
  match json_loads out with
  | Some j => RJson j
  | None => RText (strip out)
  end.

(** One turn of the [for cmd in to_list(commands)] loop: the entry
    appended to [responses]. *)
Definition run_command (check_rc : bool) (cmd : cmd_arg) : M D (response J) :=
  let cmd := as_dict cmd in
  c ← lift (command_text cmd);
  out ← catch_connection_failure (send_command (with_command cmd c))
          (fun err message =>
             if check_rc then raise (AnsibleConnectionFailure err message)
             else mret (default message err));
  mret (entry out).

Fixpoint run_commands_loop (check_rc : bool) (cmds : list cmd_arg)
    (responses : list (response J)) : M D (list (response J)) :=
  match cmds with
  | [] => mret responses
  | cmd :: rest =>
      out ← run_command check_rc cmd;
      run_commands_loop check_rc rest (responses ++ [out])
  end.

Definition run_commands (commands : option (list cmd_arg)) (check_rc : bool)
    : M D (list (response J)) :=
  match commands with
  | None => raise (ValueError "'commands' value is required")
  | Some cmds => run_commands_loop check_rc cmds []
  end.

Definition get_diff (candidate running : option string) (diff_match : string)
    (diff_ignore_lines path : option (list string)) (diff_replace : string)
    : exn + diff :=
  let device_operations := get_device_operations in
  let option_values := get_option_values in
  required ← (if bool_decide (candidate = None)
              then getitem device_operations "supports_generate_diff"
              else mret false);
  if (required : bool) then
    inl (ValueError "candidate configuration is required to generate diff")
  else
    matches ← getitem option_values "diff_match";
    if negb (mem diff_match matches) then
      inl (ValueError ("'match' value " ++ diff_match ++ " in invalid, valid values are "
                       ++ join ", " matches))
    else
      replaces ← getitem option_values "diff_replace";
      if negb (mem diff_replace replaces) then
        inl (ValueError ("'replace' value " ++ diff_replace
                         ++ " in invalid, valid values are " ++ join ", " replaces))
      else
        let candidate_obj := load candidate in
        let configdiffobjs :=
          if truthy_str running && negb (String.eqb diff_match "none")
             && negb (String.eqb diff_replace "config")
          then difference candidate_obj (default "" running) diff_ignore_lines
                 path diff_match diff_replace
          else candidate_obj in
        mret {| config_diff := match configdiffobjs with
                               | [] => ""
                               | _ => dumps configdiffobjs "commands"
                               end |}.

End Methods.

(** The dict [edit_config] returns: the commands sent and the answers. *)
Record edit_resp : Type := {
  resp_request : list string;
  resp_response : list string
}.

Section Editing.
Context {D : Type} `{!Transport D}.

(** The [for line in to_list(candidate)] loop: a failure of
    [send_command] is raised again as it is. *)
Fixpoint edit_config_loop (lines : list cmd_arg) (requests results : list string)
    : M D edit_resp :=
  match lines with
  | [] => mret {| resp_request := requests; resp_response := results |}
  | line :: rest =>
      let line := as_dict line in
      let cmd := command line in
      out ← send_command line;
      edit_config_loop rest (requests ++ [cmd]) (results ++ [out])
  end.

Definition edit_config {A B : Type} (candidate : option (list cmd_arg))
    (replace : A) (comment : B) : M D edit_resp :=
  edit_config_loop (to_list candidate) [] [].

Definition get (command : string) (prompt answer : option (list string))
    (sendonly newline : bool) (output : option string) (check_all : bool)
    (version : option string) : M D string :=
  command ← (if truthy_str output
             then lift (_get_command_with_output command (default "" output) version)
             else mret command);
  send_command {| command := command; output := None; version := None;
                  prompt := prompt; answer := answer; newline := Some newline;
                  sendonly := Some sendonly; check_all := Some check_all |}.

Definition commit : M D unit :=
  _ ← send_command (of_command "commit");
  mret tt.

End Editing.

(** [re.search(pattern, data)]: the groups of the first match, group 0
    being the whole match, or [None]. *)
Class Regex : Type := re_search : string -> string -> option (nat -> string).

(** The plugin object: the cached device facts and the connection. *)
Record plugin (D : Type) : Type := {
  _device_info : gmap string string;
  _conn : connection D
}.
Arguments _device_info {D} _.
Arguments _conn {D} _.

Section DeviceInfo.
Context {D : Type} `{!Transport D} `{!Regex}.

(** The body of [if not self._device_info:] up to the assignment of
    the cache: the facts read from [show microcode] and [show system]. *)
Definition read_device_info : M D (gmap string string) :=
  let device_info : gmap string string := <["network_os" := "aos"]> ∅ in
  reply ← get "show microcode" None None false true None false None;
  let data := strip reply in
  let device_info :=
    match re_search "\b\d+\.\d+\.\d+\.\w+\b" data with
    | Some m => <["network_os_version" := m 0%nat]> device_info
    | None => device_info
    end in
  let path :=
    match re_search "(/[\w/]+)" data with
    | Some m => Some (m 1%nat)
    | None => None
    end in
  device_info ←
    match re_search "\b(\w+\.\w+)\b" data with
    | Some m =>
        match path with
        | Some path =>
            mret (<["network_os_image" := path ++ "/" ++ m 1%nat]> device_info)
        | None => raise (NameError "path")
        end
    | None => mret device_info
    end;
  reply ← get "show system" None None false true None false None;
  let data := strip reply in
  let device_info :=
    match re_search "Description:\s+.*?(\bOS[\w-]+)\b" data with
    | Some m => <["network_os_model" := m 1%nat]> device_info
    | None => device_info
    end in
  let device_info :=
    match re_search "Name:\s+(\S+),?" data with
    | Some m => <["network_os_hostname" := rstrip_chars "," (m 1%nat)]> device_info
    | None => device_info
    end in
  mret device_info.

Definition get_device_info (self : plugin D) : (exn + gmap string string) * plugin D :=
  if bool_decide (_device_info self = ∅) then
    match read_device_info (_conn self) with
    | (inr device_info, c) => (inr device_info, {| _device_info := device_info; _conn := c |})
    | (inl e, c) => (inl e, {| _device_info := _device_info self; _conn := c |})
    end
  else (inr (_device_info self), self).

End DeviceInfo.

End Cliconf.

(** ** module_utils/network/aos/aos.py *)

Module ModuleUtils.
Import Py Cliconf.

(** [is_json(cmd)] *)
Definition is_json (cmd : string) : bool := endswith cmd "| json".

(** The text of the [ConnectionError] that reaches the module when a
    method of the plugin raises on the other side of the socket. *)
Class RpcError : Type := error_text : exn -> string.

(** [to_command(module, commands)]: the [ComplexList] transform of the
    network utilities. *)
Class ToCommand : Type := to_command : list command_dict -> list cmd_arg.

(** The [Cli] object: its cache of fetched configurations and its
    connection. [module.fail_json(msg=m)] ends the run; a method that
    calls it returns [inl m]. *)
Record Cli (D : Type) : Type := {
  _device_configs : gmap string string;
  _connection : connection D
}.
Arguments _device_configs {D} _.
Arguments _connection {D} _.

Section Cli.
Context {D J : Type} `{!Transport D} `{!JsonLoads J} `{!RpcError} `{!ToCommand}.

Definition get_config (flags : option (list string)) (self : Cli D)
    : (string + string) * Cli D :=
  let flags := default [] flags in
  let cmd := "show configuration snapshot " in
  let cmd := cmd ++ join " " flags in
  let cmd := strip cmd in
  match _device_configs self !! cmd with
  | Some cfg => (inr cfg, self)
  | None =>
      match Cliconf.get_config "running" (Some flags) "text" (_connection self) with
      | (inl exc, conn) =>
          (inl (error_text exc),
           {| _device_configs := _device_configs self; _connection := conn |})
      | (inr out, conn) =>
          let cfg := strip out in
          (inr cfg,
           {| _device_configs := <[cmd := cfg]> (_device_configs self);
              _connection := conn |})
      end
  end.

Definition run_commands (commands : list command_dict) (check_rc : bool)
    (self : Cli D) : (string + list (response J)) * Cli D :=
  match Cliconf.run_commands (Some (to_command commands)) check_rc
          (_connection self) with
  | (inl exc, conn) =>
      (inl (error_text exc),
       {| _device_configs := _device_configs self; _connection := conn |})
  | (inr response, conn) =>
      (inr response,
       {| _device_configs := _device_configs self; _connection := conn |})
  end.

End Cli.

(** The [err] attribute of the [ConnectionError] that reaches the module,
    when it has one. *)
Class RpcErr : Type := error_err : exn -> option string.

(** What [load_config] returns: the answer of [edit_config], or the dict
    [{"changed": True}]. *)
Inductive load_response : Type :=
| Edited (resp : edit_resp)
| Changed.

Section LoadConfig.
Context {D : Type} `{!Transport D} `{!RpcError} `{!RpcErr}.

(** [load_config]: [inl (msg, data)] is the [fail_json] that ends the run;
    [inr (response, warnings)] the value returned and the warnings passed
    to [module.warn]. *)
Definition load_config (commands : option (list cmd_arg)) (commit replace : bool)
    (self : Cli D) : ((string * string) + (load_response * list string)) * Cli D :=
  match Cliconf.edit_config commands commit replace (_connection self) with
  | (inr response, conn) =>
      (inr (Edited response, []),
       {| _device_configs := _device_configs self; _connection := conn |})
  | (inl exc, conn) =>
      let self' := {| _device_configs := _device_configs self; _connection := conn |} in
      let message := default (error_text exc) (error_err exc) in
      if contains "check mode is not supported without configuration session" message
      then (inr (Changed, ["AOS can not check config without config session"]), self')
      else (inl (message, message), self')
  end.

End LoadConfig.

End ModuleUtils.

(** ** modules/aos_command.py *)

Module AosCommand.
Import Py Cliconf.

(** [run_commands(module, commands)] as the module sees it: the
    responses of one batch, or the message of the [fail_json] that ends
    the run, and the world after the batch. *)
Class Runner (W R : Type) : Type :=
  run_commands : list command_dict -> W -> (string + list R) * W.

(** The runner of the module: [run_commands] of the module utilities on
    the [Cli] object, [check_rc] left at its default. *)
#[global] Instance cli_runner {D J : Type} `{!Transport D} `{!JsonLoads J}
    `{!ModuleUtils.RpcError} `{!ModuleUtils.ToCommand}
  : Runner (ModuleUtils.Cli D) (response J) :=
  fun commands self => ModuleUtils.run_commands commands true self.

(** A [Conditional] object of the network utilities: [raw] is the source
    text it was built from and [call] its evaluation on the responses,
    taken on responses it applies to: an evaluation that raises has no
    counterpart here. The class defines no equality, so two objects are
    equal when they are the same object; [ident] is that identity. *)
Record Conditional (R : Type) : Type := {
  ident : nat;
  raw : string;
  call : list R -> bool
}.
Arguments ident {R} _.
Arguments raw {R} _.
Arguments call {R} _ _.

(** [Conditional(c)]: the evaluation of the parsed expression, or the
    exception the constructor raises: an [AttributeError] for an operator
    it does not know, an [IndexError] for a text without words, a
    [ValueError] for a text it cannot split. *)
Class ConditionalParser (R : Type) : Type :=
  parse_conditional : string -> exn + (list R -> bool).

(** The module object: [transform_commands(module)], the check mode
    flag and the parameters the argument spec declares. *)
Record AnsibleModule : Type := {
  check_mode : bool;
  transform_commands : list command_dict;
  wait_for : option (list string);
  match_ : string;
  retries : Z;
  interval : Z
}.

(** How a run ends. *)
Inductive outcome (R : Type) : Type :=
| ExitJson (changed : bool) (warnings : list string) (stdout : list R)
| FailJson (msg : string) (failed_conditions : option (list string))
| Uncaught (e : exn).
Arguments ExitJson {R} _ _ _.
Arguments FailJson {R} _ _.
Arguments Uncaught {R} _.

(** The warning recorded for a command that check mode drops. *)
Definition check_mode_warning (item : command_dict) : string :=
  "Only show commands are supported when using check mode, not executing "
  ++ command item.

(** The [for item in list(commands)] loop of [parse_commands] in check
    mode: [items] is the copy, [commands] the list being edited. *)
Fixpoint check_mode_loop (items commands : list command_dict) (warnings : list string)
    : exn + (list command_dict * list string) :=
  match items with
  | [] => inr (commands, warnings)
  | item :: rest =>
      if negb (startswith (command item) "show") then
        let warnings := app warnings [check_mode_warning item] in
        match remove (fun a b => bool_decide (a = b)) item commands with
        | Some commands => check_mode_loop rest commands warnings
        | None => inl (ValueError "list.remove(x): x not in list")
        end
      else check_mode_loop rest commands warnings
  end.

Definition parse_commands (module : AnsibleModule) (warnings : list string)
    : exn + (list command_dict * list string) :=
  let commands := transform_commands module in
  if check_mode module then check_mode_loop commands commands warnings
  else inr (commands, warnings).

Section Main.
Context {W R : Type} `{!Runner W R} `{!ConditionalParser R}.

(** [[Conditional(c) for c in wait_for]]; [next] is the identity of the
    next object. *)
Fixpoint new_conditionals (next : nat) (wait_for : list string)
    : exn + list (Conditional R) :=
  match wait_for with
  | [] => inr []
  | c :: rest =>
      match parse_conditional c with
      | inl exc => inl exc
      | inr f =>
          match new_conditionals (S next) rest with
          | inl exc => inl exc
          | inr l => inr ({| ident := next; raw := c; call := f |} :: l)
          end
      end
  end.

(** The [for item in list(conditionals)] loop: [items] is the copy,
    [conditionals] the pending list. *)
Fixpoint check_conditionals (match_ : string) (responses : list R)
    (items conditionals : list (Conditional R)) : exn + list (Conditional R) :=
  match items with
  | [] => inr conditionals
  | item :: rest =>
      if call item responses then
        if String.eqb match_ "any" then inr []
        else
          match remove (fun a b => Nat.eqb (ident a) (ident b)) item conditionals with
          | Some conditionals => check_conditionals match_ responses rest conditionals
          | None => inl (ValueError "list.remove(x): x not in list")
          end
      else check_conditionals match_ responses rest conditionals
  end.

(** The variables of [main] that the [while] loop reads and writes;
    [responses] is unbound until the first batch returns. [attempts]
    counts the batches sent and [slept] lists the pauses taken. *)
Record loop_state : Type := {
  st_retries : Z;
  st_conditionals : list (Conditional R);
  st_responses : option (list R);
  st_world : W;
  attempts : nat;
  slept : list Z
}.

(** How one turn of the loop ends. *)
Inductive turn : Type :=
| Continue
| Break
| Exit (o : outcome R).

Definition loop_body (module : AnsibleModule) (commands : list command_dict)
    (st : loop_state) : turn * loop_state :=
  match run_commands commands (st_world st) with
  | (inl msg, w) =>
      (Exit (FailJson msg None),
       {| st_retries := st_retries st; st_conditionals := st_conditionals st;
          st_responses := st_responses st; st_world := w;
          attempts := S (attempts st); slept := slept st |})
  | (inr responses, w) =>
      match check_conditionals (match_ module) responses
              (st_conditionals st) (st_conditionals st) with
      | inl e =>
          (Exit (Uncaught e),
           {| st_retries := st_retries st; st_conditionals := st_conditionals st;
              st_responses := Some responses; st_world := w;
              attempts := S (attempts st); slept := slept st |})
      | inr conditionals =>
          let st' := {| st_retries := st_retries st; st_conditionals := conditionals;
                        st_responses := Some responses; st_world := w;
                        attempts := S (attempts st); slept := slept st |} in
          match conditionals with
          | [] => (Break, st')
          | _ =>
              if interval module <? 0 then
                (Exit (Uncaught (ValueError "sleep length must be non-negative")), st')
              else
                (Continue,
                 {| st_retries := st_retries st - 1; st_conditionals := conditionals;
                    st_responses := Some responses; st_world := w;
                    attempts := S (attempts st);
                    slept := slept st ++ [interval module] |})
          end
      end
  end.

(** [while retries >= 0: ...] run for at most [fuel] turns: [None] when
    the fuel is spent, else the exit taken inside the loop, if any,
    and the state the loop leaves. *)
Fixpoint while_loop (fuel : nat) (module : AnsibleModule)
    (commands : list command_dict) (st : loop_state)
    : option (option (outcome R) * loop_state) :=
  match fuel with
  | O => None
  | S fuel =>
      if 0 <=? st_retries st then
        match loop_body module commands st with
        | (Continue, st') => while_loop fuel module commands st'
        | (Break, st') => Some (None, st')
        | (Exit o, st') => Some (Some o, st')
        end
      else Some (None, st)
  end.

(** The code of [main] after the loop. *)
Definition after_loop (warnings : list string) (st : loop_state) : outcome R :=
  match st_conditionals st with
  | _ :: _ =>
      let failed_conditions := raw <$> st_conditionals st in
      let msg := "One or more conditional statements have not been satisfied" in
      FailJson msg (Some failed_conditions)
  | [] =>
      match st_responses st with
      | None => Uncaught (NameError "responses")
      | Some responses => ExitJson false warnings responses
      end
  end.

(** [main()] on a module object and a world, with [fuel] turns for the
    loop: how the run ends, and the state it leaves ([None] when the
    run ends before the loop). *)
Definition main (fuel : nat) (module : AnsibleModule) (w : W)
    : option (outcome R * option loop_state) :=
  let warnings := [] in
  match parse_commands module warnings with
  | inl e => Some (Uncaught e, None)
  | inr (commands, warnings) =>
      let wait_for := default [] (wait_for module) in
      match new_conditionals 0 wait_for with
      | inl (AttributeError exc) => Some (FailJson exc None, None)
      | inl exc => Some (Uncaught exc, None)
      | inr conditionals =>
          let st := {| st_retries := retries module; st_conditionals := conditionals;
                       st_responses := None; st_world := w;
                       attempts := 0; slept := [] |} in
          match while_loop fuel module commands st with
          | None => None
          | Some (Some o, st') => Some (o, Some st')
          | Some (None, st') => Some (after_loop warnings st', Some st')
          end
      end
  end.

(** Turns that always suffice: the loop runs while [retries >= 0] and
    every turn that continues takes one off. *)
Definition enough_fuel (module : AnsibleModule) : nat :=
  S (Z.to_nat (retries module + 1)).

End Main.

End AosCommand.

(** ** Stand-ins for the collaborators, for the concrete runs *)

Module Scenario.
Import Py Cliconf AosCommand.

(** A device that answers from a script, one reply a call, and with the
    empty text once the script is over. *)
#[global] Instance scripted_device : Transport (list (exn + string)) :=
  fun _ script =>
    match script with
    | [] => (inr "", [])
    | reply :: script => (reply, script)
    end.

Definition connect (script : list (exn + string)) : connection (list (exn + string)) :=
  {| device := script; sent := [] |}.

(** A command with an [output] that is not valid, alone and after
    another command. *)
Definition xml_command : command_dict :=
  {| command := "show chassis"; output := Some "xml"; version := None;
     prompt := None; answer := None; newline := None; sendonly := None;
     check_all := None |}.

Definition xml_second : list cmd_arg := [CmdStr "show vlan"; CmdMap xml_command].

(** A JSON reader that knows the two boolean literals. *)
#[global] Instance json_booleans : JsonLoads bool :=
  fun s => if String.eqb (strip s) "true" then Some true
           else if String.eqb (strip s) "false" then Some false
           else None.

(** Flat configurations: the items are the lines of the text with their
    white space off, but for the blank lines and the comment lines, which
    begin with [!] or [#]; the difference keeps the candidate lines the
    running text lacks, and [dumps] joins lines. *)
#[global] Instance flat_config : NetworkConfig string := {|
  load candidate :=
    List.filter (fun l => negb (String.eqb l "") && negb (startswith l "!")
                          && negb (startswith l "#"))
      (strip <$> split "010" (str_of_option candidate));
  difference items running _ _ _ _ :=
    List.filter (fun l => negb (mem l (strip <$> split "010" running))) items;
  dumps items _ := join (String "010" "") items
|}.

(** Module objects: one in check mode, one that waits for two
    conditions with two retries, one that waits for one condition
    without retry. *)
Definition check_mode_module : AnsibleModule :=
  {| check_mode := true;
     transform_commands :=
       [of_command "show vlan"; of_command "write memory"; of_command "show chassis"];
     wait_for := None; match_ := "all"; retries := 9; interval := 1 |}.

Definition two_waits : AnsibleModule :=
  {| check_mode := false;
     transform_commands := [of_command "show interfaces"];
     wait_for := Some ["Up"; "Ready"]; match_ := "all"; retries := 2; interval := 0 |}.

Definition one_wait : AnsibleModule :=
  {| check_mode := false;
     transform_commands := [of_command "show interfaces"];
     wait_for := Some ["Up"]; match_ := "all"; retries := 0; interval := 0 |}.


(** A link that is down: every call raises a connection failure. *)
#[global] Instance dead_link : Transport unit :=
  fun _ _ => (inl (AnsibleConnectionFailure None "connection lost"), tt).

(** A reader of patterns that takes the text up to the first blank of the
    data as the match and as each of its groups; the pattern of paths
    matches only data that holds a slash. *)
#[global] Instance first_word : Regex :=
  fun pattern data =>
    if String.eqb pattern "(/[\w/]+)" && negb (contains "/" data) then None
    else Some (fun _ => hd "" (split " " data)).

(** A plugin and a [Cli] object that have fetched nothing yet. *)
Definition fresh_plugin (script : list (exn + string)) : plugin (list (exn + string)) :=
  {| _device_info := ∅; _conn := connect script |}.

Definition fresh_cli (script : list (exn + string))
    : ModuleUtils.Cli (list (exn + string)) :=
  {| ModuleUtils._device_configs := ∅; ModuleUtils._connection := connect script |}.

(** A module object with a negative number of retries. *)
Definition negative_retries : AnsibleModule :=
  {| check_mode := false;
     transform_commands := [of_command "show interfaces"];
     wait_for := Some ["Up"]; match_ := "all"; retries := -1; interval := 1 |}.

(** Module objects whose second conditional is the empty text, and has
    an operator that does not exist. *)
Definition empty_wait : AnsibleModule :=
  {| check_mode := false;
     transform_commands := [of_command "show interfaces"];
     wait_for := Some ["result[0] contains Up"; ""; "result[0] contains Ready"];
     match_ := "all"; retries := 3; interval := 1 |}.

Definition unknown_operator : AnsibleModule :=
  {| check_mode := false;
     transform_commands := [of_command "show interfaces"];
     wait_for := Some ["result[0] contains Up"; "result[0] foo Up"];
     match_ := "all"; retries := 3; interval := 1 |}.

(** Conditionals of three words, a key, an operator and a value: fewer
    words raise the [IndexError] of the missing word, an operator other
    than [contains] the [AttributeError] of the constructor, and the
    conditional looks for the value in the first response. *)
Definition strict_conditionals : ConditionalParser string :=
  fun c =>
    match split " " c with
    | [_; op; value] =>
        if String.eqb op "contains"
        then inr (fun responses =>
                    match responses with
                    | r :: _ => contains value r
                    | [] => false
                    end)
        else inl (AttributeError ("unknown operator: " ++ op))
    | _ => inl (IndexError "list index out of range")
    end.

(** The module side takes the text of an error as it is, and an error
    has no [err] attribute. *)
#[global] Instance plain_errors : ModuleUtils.RpcError :=
  fun exc =>
    match exc with
    | ValueError msg => msg
    | NameError name => name
    | KeyError key => key
    | AttributeError msg => msg
    | IndexError msg => msg
    | AnsibleConnectionFailure _ message => message
    end.

#[global] Instance no_err : ModuleUtils.RpcErr := fun _ => None.

(** A transform that passes the command dicts on as they are. *)
#[global] Instance as_given : ModuleUtils.ToCommand := fmap CmdMap.

(** Conditionals on the plugin's entries: met when the first entry is the
    JSON literal [true]. *)
#[global] Instance first_true : ConditionalParser (response bool) :=
  fun _ => inr (fun responses =>
                  match responses with
                  | RJson true :: _ => true
                  | _ => false
                  end).

(** A module object whose only command asks for an output that is not
    valid. *)
Definition xml_module : AnsibleModule :=
  {| check_mode := false; transform_commands := [xml_command];
     wait_for := None; match_ := "all"; retries := 9; interval := 1 |}.

(** A world that answers each batch from a script of text responses. *)
#[global] Instance scripted_world : Runner (list (string + list string)) string :=
  fun _ script =>
    match script with
    | [] => (inr [], [])
    | reply :: script => (reply, script)
    end.

(** Conditionals that look for their own text in the first response. *)
#[global] Instance text_conditionals : ConditionalParser string :=
  fun c => inr (fun responses =>
                  match responses with
                  | r :: _ => contains c r
                  | [] => false
                  end).

End Scenario.

(** * Properties *)

(** ** Strings *)

Section StringFacts.
Import Py.

Lemma append_empty_r (s : string) : s ++ "" = s.
Proof.
  induction s as [|c s IH]; [reflexivity|].
  change (String c s ++ "") with (String c (s ++ "")). now rewrite IH.
Qed.

Lemma contains_of_prefix (p s : string) :
  String.prefix p s = true -> contains p s = true.
Proof. intros H. destruct s; simpl in *; rewrite H; reflexivity. Qed.

Lemma contains_cons (p : string) (c : ascii) (s : string) :
  contains p s = true -> contains p (String c s) = true.
Proof. intros H. cbn [contains]. rewrite H. apply orb_true_r. Qed.

Lemma contains_app_r (p s t : string) :
  contains p t = true -> contains p (s ++ t) = true.
Proof.
  intros H. induction s as [|c s IH]; [exact H|].
  change (String c s ++ t) with (String c (s ++ t)). now apply contains_cons.
Qed.

Lemma substring_contains (i : nat) : forall s p : string,
  String.substring i (String.length p) s = p -> contains p s = true.
Proof.
  induction i as [|i IH]; intros s p H.
  - apply contains_of_prefix, String.prefix_correct, H.
  - destruct s as [|c s].
    + simpl in H. subst p. reflexivity.
    + apply contains_cons, IH. exact H.
Qed.

Lemma endswith_contains (s p : string) :
  endswith s p = true -> contains p s = true.
Proof.
  unfold endswith. destruct (_ <=? _)%nat; [|discriminate].
  intros H. apply String.eqb_eq in H. eapply substring_contains, H.
Qed.

Lemma mem_spec (x : string) (l : list string) : mem x l = true <-> x ∈ l.
Proof.
  unfold mem. rewrite existsb_exists. split.
  - intros (y & Hy & E). apply String.eqb_eq in E. subst y.
    now apply list_elem_of_In.
  - intros H. exists x. split; [now apply list_elem_of_In | apply String.eqb_refl].
Qed.

End StringFacts.

(** ** utils.py: vlan lists *)

Section VlanFacts.
Import Py Utils.

(** The slot order is one of the orders Python allows for a set. *)
Lemma cpython_small_set_contract : set_contract cpython_small_set.
Proof.
  intros l. unfold cpython_small_set. split.
  - rewrite merge_sort_Permutation. apply NoDup_remove_dups.
  - intros x. rewrite merge_sort_Permutation. apply elem_of_remove_dups.
Qed.

(** Whatever the order of the set, [numerical_sort] returns the numbers
    it was given, each once. *)
Lemma numerical_sort_elements (set_order : list Z -> list Z) (l : list Z) :
  set_contract set_order ->
  NoDup (numerical_sort set_order l) /\
  forall x, x ∈ numerical_sort set_order l <-> x ∈ l.
Proof.
  intros H. unfold numerical_sort. destruct (H (merge_sort Z.le l)) as [Hn He].
  split; [exact Hn|]. intros x. rewrite He. now rewrite merge_sort_Permutation.
Qed.

(** X6: a part [none] ends the loop: the parts that follow it are not
    read, be they well formed or not, and the result is that of the parts
    before it. *)
Lemma vlan_parts_none (pre post : list string) : forall result,
  vlan_parts (pre ++ "none" :: post) result = vlan_parts pre result.
Proof.
  induction pre as [|part pre IH]; intros result; [reflexivity|].
  cbn [app vlan_parts].
  destruct (String.eqb part "none"); [reflexivity|].
  destruct (contains "-" part).
  - destruct (split "-" part) as [|a [|b [|? ?]]]; try reflexivity.
    destruct (int_or_raise a); [reflexivity|].
    destruct (int_or_raise b); [reflexivity|]. apply IH.
  - destruct (int_or_raise part); [reflexivity|]. apply IH.
Qed.

(** An inclusive range holds every number between its ends. *)
Lemma elem_of_range (a b x : Z) : x ∈ range a (b + 1) <-> a <= x <= b.
Proof.
  unfold range. rewrite list_elem_of_fmap. split.
  - intros (i & -> & Hi). apply elem_of_seq in Hi. lia.
  - intros H. exists (Z.to_nat (x - a)). split; [lia|]. apply elem_of_seq. lia.
Qed.

(** C10: on the vlan specification "1,8" the list comes back as 8, 1
    under CPython's set order, which is not ascending: the sort done by
    [numerical_sort] is lost when the list goes through a set. *)
Theorem vlan_range_to_list_not_ascending :
  vlan_range_to_list cpython_small_set (VStr "1,8") = inr [8; 1]
  /\ ~ Sorted Z.le [8; 1]
  /\ set_contract cpython_small_set.
Proof.
  split; [reflexivity|]. split; [|apply cpython_small_set_contract].
  intros H. apply Sorted_inv in H as [_ H]. apply HdRel_inv in H. lia.
Qed.

End VlanFacts.

(** ** cliconf/aos.py: command formatting *)

Section CommandFormat.
Import Py Cliconf.

Lemma option_values_output :
  getitem get_option_values "output" = inr ["text"; "json"].
Proof. reflexivity. Qed.

Lemma option_values_format :
  getitem get_option_values "format" = inr ["text"; "json"].
Proof. reflexivity. Qed.

Lemma option_values_diff_match :
  getitem get_option_values "diff_match" = inr ["line"; "strict"; "exact"; "none"].
Proof. reflexivity. Qed.

Lemma option_values_diff_replace :
  getitem get_option_values "diff_replace" = inr ["line"; "block"; "config"].
Proof. reflexivity. Qed.

(** An [output] outside the valid values is refused, and the message
    lists them. *)
Lemma get_command_with_output_invalid (command output : string)
    (version : option string) :
  mem output ["text"; "json"] = false ->
  _get_command_with_output command output version =
    inl (ValueError ("'output' value " ++ output
                     ++ " is invalid. Valid values are text,json")).
Proof.
  intros H. unfold _get_command_with_output. rewrite option_values_output.
  rewrite H. reflexivity.
Qed.

(** The claim of C6 about text output fails: a command that carries
    [| json] in its own text gets the version suffix although its output
    is [text]. *)
Lemma get_command_with_output_text_changed :
  _get_command_with_output "show vlan | json" "text" (Some "1")
    = inr "show vlan | json version 1"
  /\ _get_command_with_output "show vlan | json" "text" (Some "1")
    <> inr "show vlan | json".
Proof. split; [reflexivity | discriminate]. Qed.

(** C6 (amended): with output [json], [ | json] is appended unless the
    command already ends with [| json], and a version other than
    [latest] adds [ version <v>] after it; with output [text] the
    command is returned as it is, except that a command whose text
    contains [| json] also gets [ version <v>] when the version is not
    [latest]. *)
Theorem get_command_with_output_spec (command : string) (version : option string) :
  _get_command_with_output command "json" version =
    inr ((if endswith command "| json" then command else command ++ " | json")
         ++ (if bool_decide (version = Some "latest") then ""
             else " version " ++ str_of_option version))
  /\ _get_command_with_output command "text" version =
    inr (if negb (bool_decide (version = Some "latest")) && contains "| json" command
         then command ++ " version " ++ str_of_option version
         else command).
Proof.
  unfold _get_command_with_output. rewrite option_values_output.
  change (mem "json" ["text"; "json"]) with true.
  change (mem "text" ["text"; "json"]) with true.
  change (String.eqb "json" "json") with true.
  change (String.eqb "text" "json") with false.
  cbn [negb andb]. split; [|reflexivity].
  destruct (endswith command "| json") eqn:E; cbn [negb].
  - rewrite (endswith_contains _ _ E).
    destruct (bool_decide (version = Some "latest")); cbn [negb andb];
      [now rewrite append_empty_r | reflexivity].
  - rewrite (contains_app_r "| json" command " | json" eq_refl).
    destruct (bool_decide (version = Some "latest")); cbn [negb andb];
      [now rewrite append_empty_r | reflexivity].
Qed.

End CommandFormat.

(** ** cliconf/aos.py: get_diff *)

Section GetDiff.
Import Py Cliconf.
Context {I : Type} `{!NetworkConfig I}.

Lemma supports_generate_diff_false :
  getitem get_device_operations "supports_generate_diff" = inr false.
Proof. reflexivity. Qed.

(** The candidate guard never fires: whatever the candidate, control
    reaches the validation of [diff_match]. *)
Lemma get_diff_unfold (candidate running : option string) (diff_match : string)
    (diff_ignore_lines path : option (list string)) (diff_replace : string) :
  get_diff candidate running diff_match diff_ignore_lines path diff_replace =
    if negb (mem diff_match ["line"; "strict"; "exact"; "none"]) then
      inl (ValueError ("'match' value " ++ diff_match
                       ++ " in invalid, valid values are line, strict, exact, none"))
    else if negb (mem diff_replace ["line"; "block"; "config"]) then
      inl (ValueError ("'replace' value " ++ diff_replace
                       ++ " in invalid, valid values are line, block, config"))
    else
      let configdiffobjs :=
        if truthy_str running && negb (String.eqb diff_match "none")
           && negb (String.eqb diff_replace "config")
        then difference (load candidate) (default "" running) diff_ignore_lines
               path diff_match diff_replace
        else load candidate in
      inr {| config_diff := match configdiffobjs with
                            | [] => ""
                            | _ => dumps configdiffobjs "commands"
                            end |}.
Proof.
  unfold get_diff. destruct candidate; reflexivity.
Qed.

(** C1 (amended): the error for an absent candidate is raised only when
    the device operations report [supports_generate_diff]; they report
    it false, so no call of [get_diff] fails with that error, and a call
    without candidate and with valid policies returns a diff. *)
Theorem get_diff_candidate_guard :
  getitem get_device_operations "supports_generate_diff" = inr false
  /\ (forall candidate running diff_match diff_ignore_lines path diff_replace,
        get_diff candidate running diff_match diff_ignore_lines path diff_replace
        <> inl (ValueError "candidate configuration is required to generate diff"))
  /\ (forall running diff_match diff_ignore_lines path diff_replace,
        mem diff_match ["line"; "strict"; "exact"; "none"] = true ->
        mem diff_replace ["line"; "block"; "config"] = true ->
        exists d,
          get_diff None running diff_match diff_ignore_lines path diff_replace = inr d).
Proof.
  split; [reflexivity|]. split.
  - intros candidate running m il p r. rewrite get_diff_unfold.
    destruct (mem m _); cbn [negb]; [|discriminate].
    destruct (mem r _); cbn [negb]; discriminate.
  - intros running m il p r Hm Hr. rewrite get_diff_unfold, Hm, Hr. cbn [negb].
    eexists. reflexivity.
Qed.

(** C2 (amended): with valid policies and replace policy [config], match
    policy [none] or no running configuration, [get_diff] returns every
    item the loader makes of the candidate, rendered as commands, and the
    empty text when the loader makes no item; no comparison is made: the
    result is that of a call without running configuration, ignored
    lines and path. So does a diff of a candidate against itself under
    the [config] policy. *)
Theorem get_diff_full_candidate (candidate running : option string)
    (diff_match : string) (diff_ignore_lines path : option (list string))
    (diff_replace : string) :
  mem diff_match ["line"; "strict"; "exact"; "none"] = true ->
  mem diff_replace ["line"; "block"; "config"] = true ->
  diff_replace = "config" \/ diff_match = "none" \/ truthy_str running = false ->
  get_diff candidate running diff_match diff_ignore_lines path diff_replace =
    inr {| config_diff := match load candidate with
                          | [] => ""
                          | _ => dumps (load candidate) "commands"
                          end |}
  /\ get_diff candidate candidate diff_match diff_ignore_lines path "config" =
    inr {| config_diff := match load candidate with
                          | [] => ""
                          | _ => dumps (load candidate) "commands"
                          end |}
  /\ get_diff candidate running diff_match diff_ignore_lines path diff_replace =
    get_diff candidate None diff_match None None diff_replace.
Proof.
  intros Hm Hr H. rewrite !get_diff_unfold, Hm, Hr. cbn [negb truthy_str andb].
  change (mem "config" ["line"; "block"; "config"]) with true. cbn [negb].
  change (String.eqb "config" "config") with true.
  rewrite !andb_false_r.
  assert (E : truthy_str running && negb (String.eqb diff_match "none")
              && negb (String.eqb diff_replace "config") = false).
  { destruct H as [-> | [-> | ->]].
    - change (String.eqb "config" "config") with true. now rewrite andb_false_r.
    - change (String.eqb "none" "none") with true.
      now rewrite andb_false_r, andb_false_l.
    - reflexivity. }
  rewrite E. repeat split.
Qed.

End GetDiff.

(** C1 as stated fails: without candidate, [get_diff] raises nothing and
    returns a diff. *)
Lemma get_diff_without_candidate :
  Cliconf.get_diff None (Some "vlan 10") "line" None None "line"
    <> inl (Py.ValueError "candidate configuration is required to generate diff")
  /\ exists d : Cliconf.diff,
       Cliconf.get_diff None (Some "vlan 10") "line" None None "line" = inr d.
Proof. split; [discriminate | eexists; reflexivity]. Qed.

Lemma get_diff_candidate_guard_witness :
  exists d : Cliconf.diff,
    Cliconf.get_diff None (Some "vlan 10") "strict" None None "block" = inr d.
Proof.
  apply (proj2 (proj2 (get_diff_candidate_guard (I := string))));
    reflexivity.
Defined.

(** C2 as stated fails: what comes back is not the text of the candidate.
    A candidate of one comment line comes back as the empty text under
    the [config] policy, and a comment line before a command is left
    out. *)
Lemma get_diff_config_not_verbatim :
  Cliconf.get_diff (Some "! note") (Some "! note") "line" None None "config"
    = inr {| Cliconf.config_diff := "" |}
  /\ Cliconf.get_diff (Some ("! note" ++ String "010" "vlan 10")) None "line" None None
       "config"
    = inr {| Cliconf.config_diff := "vlan 10" |}
  /\ "vlan 10" <> "! note" ++ String "010" "vlan 10".
Proof. repeat split. discriminate. Qed.

Lemma get_diff_full_candidate_witness :
  Cliconf.get_diff (Some "vlan 10") (Some "vlan 20") "line" None None "config"
    = inr {| Cliconf.config_diff := "vlan 10" |}
  /\ Cliconf.get_diff (Some "vlan 10") (Some "vlan 10") "line" None None "config"
    = inr {| Cliconf.config_diff := "vlan 10" |}
  /\ Cliconf.get_diff (Some "vlan 10") (Some "vlan 20") "line" None None "config"
    = Cliconf.get_diff (Some "vlan 10") None "line" None None "config".
Proof.
  exact (get_diff_full_candidate (I := string)
           (Some "vlan 10") (Some "vlan 20") "line" None None "config"
           eq_refl eq_refl (or_introl eq_refl)).
Defined.

(** ** cliconf/aos.py: run_commands and get_config *)

Section RunCommands.
Import Py Cliconf.
Context {D J : Type} `{!Transport D} `{!JsonLoads J}.

Lemma run_command_unfold (check_rc : bool) (cmd : cmd_arg) (c : connection D) :
  run_command check_rc cmd c =
    match command_text (as_dict cmd) with
    | inl e => (inl e, c)
    | inr text =>
        let kwargs := with_command (as_dict cmd) text in
        let c' := {| device := (send_command_on kwargs (device c)).2;
                     sent := sent c ++ [kwargs] |} in
        match (send_command_on kwargs (device c)).1 with
        | inr out => (inr (entry out), c')
        | inl (AnsibleConnectionFailure err message) =>
            if check_rc then (inl (AnsibleConnectionFailure err message), c')
            else (inr (entry (default message err)), c')
        | inl e => (inl e, c')
        end
    end.
Proof.
  unfold run_command, mbind, M_bind, lift, mret, M_ret,
    catch_connection_failure, send_command, raise.
  destruct (command_text (as_dict cmd)) as [e|text]; [reflexivity|].
  destruct (send_command_on _ (device c)) as [[[]|out] d']; cbn [fst snd];
    try reflexivity.
  destruct check_rc; reflexivity.
Qed.

Lemma run_commands_loop_cons (check_rc : bool) (cmd : cmd_arg) (rest : list cmd_arg)
    (responses : list (response J)) (c : connection D) :
  run_commands_loop check_rc (cmd :: rest) responses c =
    match run_command check_rc cmd c with
    | (inr out, c') => run_commands_loop check_rc rest (responses ++ [out]) c'
    | (inl e, c') => (inl e, c')
    end.
Proof. reflexivity. Qed.

(** A list of commands runs as its first part followed by the rest. *)
Lemma run_commands_loop_app (check_rc : bool) (pre rest : list cmd_arg) :
  forall (responses : list (response J)) (c : connection D),
  run_commands_loop check_rc (pre ++ rest) responses c =
    match run_commands_loop check_rc pre responses c with
    | (inr responses', c') => run_commands_loop check_rc rest responses' c'
    | (inl e, c') => (inl e, c')
    end.
Proof.
  induction pre as [|cmd pre IH]; intros responses c; [reflexivity|].
  cbn [app]. rewrite !run_commands_loop_cons.
  destruct (run_command check_rc cmd c) as [[e|out] c']; [reflexivity|]. apply IH.
Qed.

(** Each command is sent at most once. *)
Lemma run_commands_loop_sent (check_rc : bool) (cmds : list cmd_arg) :
  forall (responses : list (response J)) (c : connection D),
  exists l, sent (run_commands_loop check_rc cmds responses c).2 = (sent c ++ l)%list
            /\ (length l <= length cmds)%nat.
Proof.
  induction cmds as [|cmd cmds IH]; intros responses c.
  - exists []. split; [now rewrite app_nil_r | reflexivity].
  - rewrite run_commands_loop_cons, run_command_unfold.
    destruct (command_text (as_dict cmd)) as [e|text]; cbn [snd].
    { exists []. split; [now rewrite app_nil_r | cbn; lia]. }
    cbv zeta.
    set (c' := {| device := _; sent := _ |}).
    assert (Hstep : forall r, exists l,
               sent (run_commands_loop check_rc cmds r c').2 = (sent c ++ l)%list
               /\ (length l <= length (cmd :: cmds))%nat).
    { intros r. destruct (IH r c') as (l & Hl & Hn).
      exists (with_command (as_dict cmd) text :: l). split.
      - rewrite Hl. subst c'. cbn [sent]. now rewrite <- app_assoc.
      - cbn [length]. lia. }
    assert (Hstop : exists l, sent c' = (sent c ++ l)%list
                              /\ (length l <= length (cmd :: cmds))%nat).
    { eexists. split; [reflexivity | cbn [length]; lia]. }
    destruct (send_command_on _ (device c)).1 as [[]|out]; cbn [snd];
      try exact Hstop; try apply Hstep.
    destruct check_rc; cbn [snd]; [exact Hstop | apply Hstep].
Qed.

(** C8: when the device raises a connection failure on a command, the
    failure reaches the caller if [check_rc] is true, and nothing more is
    sent; if [check_rc] is false nothing is raised, the text of the error
    makes the entry of that command, and the loop goes on. *)
Theorem run_commands_connection_failure (check_rc : bool)
    (pre : list cmd_arg) (cmd : cmd_arg) (rest : list cmd_arg)
    (c0 c : connection D) (responses : list (response J))
    (text : string) (err : option string) (message : string) :
  run_commands (Some pre) check_rc c0 = (inr responses, c) ->
  command_text (as_dict cmd) = inr text ->
  (send_command_on (with_command (as_dict cmd) text) (device c)).1
    = inl (AnsibleConnectionFailure err message) ->
  run_commands (Some (pre ++ cmd :: rest)%list) check_rc c0 =
    let kwargs := with_command (as_dict cmd) text in
    let c' := {| device := (send_command_on kwargs (device c)).2;
                 sent := sent c ++ [kwargs] |} in
    if check_rc then (inl (AnsibleConnectionFailure err message), c')
    else run_commands_loop false rest
           (responses ++ [entry (default message err)]) c'.
Proof.
  intros Hpre Htext Hsend. unfold run_commands in *.
  rewrite run_commands_loop_app, Hpre, run_commands_loop_cons, run_command_unfold.
  rewrite Htext. cbv zeta. rewrite Hsend. destruct check_rc; reflexivity.
Qed.

(** An [output] that is set and is not a valid value stops the command
    before it is sent. *)
Lemma run_command_invalid_output (check_rc : bool) (d : command_dict) (o : string)
    (c : connection D) :
  output d = Some o -> o <> "" -> mem o ["text"; "json"] = false ->
  run_command check_rc (CmdMap d) c =
    (inl (ValueError ("'output' value " ++ o
                      ++ " is invalid. Valid values are text,json")), c).
Proof.
  intros Ho Hne Hmem. rewrite run_command_unfold. cbn [as_dict].
  unfold command_text. rewrite Ho. cbn [truthy_str default].
  destruct (String.eqb_spec o ""); [contradiction|]. cbn [negb].
  now rewrite get_command_with_output_invalid.
Qed.

(** C9 (amended): [get_config] on the startup source, in text format and
    without flags, makes one call with [cat working/vcsetup.cfg] and
    returns what the device answers, white space included; a source
    other than [running] and [startup] fails with a [ValueError] and no
    call is made. *)
Theorem get_config_startup :
  (forall (flags : option (list string)) (c : connection D),
      flags = None \/ flags = Some [] ->
      get_config "startup" flags "text" c =
        let kwargs := of_command "cat working/vcsetup.cfg" in
        ((send_command_on kwargs (device c)).1,
         {| device := (send_command_on kwargs (device c)).2;
            sent := sent c ++ [kwargs] |}))
  /\ (forall (source : string) (flags : option (list string)) (format : string)
            (c : connection D),
        mem source ["running"; "startup"] = false ->
        exists msg, get_config source flags format c = (inl (ValueError msg), c)).
Proof.
  split.
  - intros flags c [-> | ->];
      unfold get_config, mbind, M_bind, lift, send_command; cbn;
      destruct (send_command_on _ (device c)); reflexivity.
  - intros source flags format c H.
    unfold get_config, mbind, M_bind, lift, raise.
    rewrite option_values_format.
    destruct (mem format _); cbn [negb]; [|eexists; reflexivity].
    change (mem source _) with (mem source ["running"; "startup"]).
    rewrite H. cbn [negb]. eexists; reflexivity.
Qed.

End RunCommands.

Section InvalidOptions.
Import Py Cliconf.
Context {D J I : Type} `{!Transport D} `{!JsonLoads J} `{!NetworkConfig I}.

(** C5 (amended): a [diff_match] or [diff_replace] outside its valid
    values makes [get_diff], which has no access to the connection, fail
    with a [ValueError] that lists the valid values; a command whose
    [output] is set and not valid makes [run_commands] fail with a
    [ValueError] that lists the valid values before that command or a
    later one is sent, the commands before it having been sent; when
    it is the first command nothing is sent. *)
Theorem invalid_option_fails :
  (forall candidate running diff_match diff_ignore_lines path diff_replace,
      mem diff_match ["line"; "strict"; "exact"; "none"] = false ->
      get_diff candidate running diff_match diff_ignore_lines path diff_replace =
        inl (ValueError ("'match' value " ++ diff_match
               ++ " in invalid, valid values are line, strict, exact, none")))
  /\ (forall candidate running diff_match diff_ignore_lines path diff_replace,
      mem diff_match ["line"; "strict"; "exact"; "none"] = true ->
      mem diff_replace ["line"; "block"; "config"] = false ->
      get_diff candidate running diff_match diff_ignore_lines path diff_replace =
        inl (ValueError ("'replace' value " ++ diff_replace
               ++ " in invalid, valid values are line, block, config")))
  /\ (forall (check_rc : bool) (pre post : list cmd_arg) (d : command_dict)
            (o : string) (c : connection D),
      output d = Some o -> o <> "" -> mem o ["text"; "json"] = false ->
      run_commands (J := J) (Some (pre ++ CmdMap d :: post)%list) check_rc c =
        match run_commands (J := J) (Some pre) check_rc c with
        | (inr _, c') =>
            (inl (ValueError ("'output' value " ++ o
                    ++ " is invalid. Valid values are text,json")), c')
        | (inl e, c') => (inl e, c')
        end)
  /\ (forall (check_rc : bool) (post : list cmd_arg) (d : command_dict)
            (o : string) (c : connection D),
      output d = Some o -> o <> "" -> mem o ["text"; "json"] = false ->
      run_commands (J := J) (Some (CmdMap d :: post)) check_rc c =
        (inl (ValueError ("'output' value " ++ o
                ++ " is invalid. Valid values are text,json")), c)).
Proof.
  repeat split.
  - intros candidate running m il p r Hm. rewrite get_diff_unfold, Hm. reflexivity.
  - intros candidate running m il p r Hm Hr. rewrite get_diff_unfold, Hm, Hr.
    reflexivity.
  - intros check_rc pre post d o c Ho Hne Hmem. unfold run_commands.
    rewrite run_commands_loop_app.
    destruct (run_commands_loop check_rc pre [] c) as [[e|responses] c'];
      [reflexivity|].
    rewrite run_commands_loop_cons.
    now rewrite (run_command_invalid_output check_rc d o c' Ho Hne Hmem).
  - intros check_rc post d o c Ho Hne Hmem. unfold run_commands.
    rewrite run_commands_loop_cons.
    now rewrite (run_command_invalid_output check_rc d o c Ho Hne Hmem).
Qed.

End InvalidOptions.

(** C5 as stated fails: the invalid [output] of a second command is found
    after the first command was sent. *)
Lemma run_commands_sends_before_invalid_output :
  (Cliconf.run_commands (J := bool) (Some Scenario.xml_second) true
     (Scenario.connect [inr "ok"])).1
    = inl (Py.ValueError "'output' value xml is invalid. Valid values are text,json")
  /\ Cliconf.sent
       (Cliconf.run_commands (J := bool) (Some Scenario.xml_second) true
          (Scenario.connect [inr "ok"])).2
     = [Cliconf.of_command "show vlan"].
Proof. split; reflexivity. Qed.

Lemma invalid_option_fails_witness :
  Cliconf.get_diff (I := string) (Some "vlan 10") None "fuzzy" None None "line"
    = inl (Py.ValueError
             "'match' value fuzzy in invalid, valid values are line, strict, exact, none")
  /\ Cliconf.get_diff (I := string) (Some "vlan 10") None "line" None None "all"
    = inl (Py.ValueError
             "'replace' value all in invalid, valid values are line, block, config")
  /\ Cliconf.run_commands (J := bool) (Some [Cliconf.CmdMap Scenario.xml_command]) true
       (Scenario.connect [inr "ok"])
    = (inl (Py.ValueError "'output' value xml is invalid. Valid values are text,json"),
       Scenario.connect [inr "ok"])
  /\ Cliconf.run_commands (J := bool) (Some Scenario.xml_second) false
       (Scenario.connect [inr "ok"])
    = (inl (Py.ValueError "'output' value xml is invalid. Valid values are text,json"),
       {| Cliconf.device := []; Cliconf.sent := [Cliconf.of_command "show vlan"] |}).
Proof.
  split; [|split; [|split]]; cycle 3.
  { refine (proj1 (proj2 (proj2 (invalid_option_fails (D := list (Py.exn + string))
                                   (J := bool) (I := string))))
              false [Cliconf.CmdStr "show vlan"] [] Scenario.xml_command "xml"
              (Scenario.connect [inr "ok"]) eq_refl _ eq_refl).
    discriminate. }
  - exact (proj1 (invalid_option_fails (D := list (Py.exn + string)) (J := bool)
                    (I := string))
             (Some "vlan 10") None "fuzzy" None None "line" eq_refl).
  - exact (proj1 (proj2 (invalid_option_fails (D := list (Py.exn + string)) (J := bool)
                           (I := string)))
             (Some "vlan 10") None "line" None None "all" eq_refl eq_refl).
  - refine (proj2 (proj2 (proj2 (invalid_option_fails (D := list (Py.exn + string))
                                   (J := bool) (I := string))))
              true [] Scenario.xml_command "xml" (Scenario.connect [inr "ok"])
              eq_refl _ eq_refl).
    discriminate.
Defined.

(** C9 as stated fails: the trailing white space of the device's answer
    is returned as it came. *)
Lemma get_config_startup_keeps_whitespace :
  (Cliconf.get_config "startup" None "text" (Scenario.connect [inr "vlan 10  "])).1
    = inr "vlan 10  "
  /\ "vlan 10  " <> Py.rstrip "vlan 10  ".
Proof. split; [reflexivity | discriminate]. Qed.

Lemma get_config_startup_witness :
  Cliconf.get_config "startup" (Some []) "text" (Scenario.connect [inr "vlan 10  "])
    = (inr "vlan 10  ",
       {| Cliconf.device := []; Cliconf.sent := [Cliconf.of_command "cat working/vcsetup.cfg"] |})
  /\ exists msg,
       Cliconf.get_config "candidate" None "text" (Scenario.connect [inr "vlan 10  "])
       = (inl (Py.ValueError msg), Scenario.connect [inr "vlan 10  "]).
Proof.
  split.
  - exact (proj1 (get_config_startup (D := list (Py.exn + string)))
             (Some []) (Scenario.connect [inr "vlan 10  "]) (or_intror eq_refl)).
  - exact (proj2 (get_config_startup (D := list (Py.exn + string)))
             "candidate" None "text" (Scenario.connect [inr "vlan 10  "]) eq_refl).
Defined.

Lemma run_commands_connection_failure_witness :
  Cliconf.run_commands (J := bool) (Some [Cliconf.CmdStr "show vlan"]) false
    (Scenario.connect [inl (Py.AnsibleConnectionFailure (Some " timed out ") "failure")])
  = (inr [Cliconf.RText "timed out"],
     {| Cliconf.device := []; Cliconf.sent := [Cliconf.of_command "show vlan"] |}).
Proof.
  exact (run_commands_connection_failure (J := bool) false [] (Cliconf.CmdStr "show vlan") []
           (Scenario.connect [inl (Py.AnsibleConnectionFailure (Some " timed out ") "failure")])
           (Scenario.connect [inl (Py.AnsibleConnectionFailure (Some " timed out ") "failure")])
           [] "show vlan" (Some " timed out ") "failure" eq_refl eq_refl eq_refl).
Defined.

(** ** modules/aos_command.py: check mode *)

Section ParseCommands.
Import Py Cliconf AosCommand.

(** Removing [x] from a list whose elements before [x] differ from it
    drops exactly that occurrence. *)
Lemma remove_first {A} (eqb : A -> A -> bool) (x : A) (kept rest : list A) :
  Forall (fun y => eqb y x = false) kept -> eqb x x = true ->
  remove eqb x (kept ++ x :: rest) = Some (kept ++ rest)%list.
Proof.
  intros Hkept Hx. induction Hkept as [|y kept Hy _ IH]; cbn [app remove].
  - now rewrite Hx.
  - now rewrite Hy, IH.
Qed.

Lemma check_mode_loop_filter (items : list command_dict) :
  forall (kept : list command_dict) (warnings : list string),
  Forall (fun item => startswith (command item) "show" = true) kept ->
  check_mode_loop items (kept ++ items) warnings =
    inr ((kept ++ List.filter (fun item => startswith (command item) "show") items)%list,
         (warnings ++
          (check_mode_warning
           <$> List.filter (fun item => negb (startswith (command item) "show")) items))%list).
Proof.
  induction items as [|item rest IH]; intros kept warnings Hkept.
  - cbn. now rewrite !app_nil_r.
  - cbn [check_mode_loop List.filter].
    destruct (startswith (command item) "show") eqn:E; cbn [negb].
    + replace (kept ++ item :: rest)%list with ((kept ++ [item]) ++ rest)%list
        by now rewrite <- app_assoc.
      rewrite IH; [now rewrite <- app_assoc|].
      apply Forall_app. split; [exact Hkept | now constructor].
    + rewrite remove_first.
      * rewrite IH by exact Hkept. cbn [fmap list_fmap].
        now rewrite <- app_assoc.
      * eapply Forall_impl; [exact Hkept|]. intros y Hy. cbn beta in Hy.
        apply bool_decide_eq_false. intros ->. congruence.
      * now apply bool_decide_eq_true.
Qed.

(** In check mode the loop of [parse_commands] amounts to a filter. *)
Lemma parse_commands_filter (module : AnsibleModule) (warnings : list string) :
  check_mode module = true ->
  parse_commands module warnings =
    inr (List.filter (fun item => startswith (command item) "show")
           (transform_commands module),
         (warnings ++
          (check_mode_warning
           <$> List.filter (fun item => negb (startswith (command item) "show"))
                 (transform_commands module)))%list).
Proof.
  intros H. unfold parse_commands. rewrite H.
  apply (check_mode_loop_filter (transform_commands module) [] warnings).
  constructor.
Qed.

(** C7: in check mode [parse_commands] keeps exactly the commands that
    begin with [show], in their order, and adds one warning for each
    command it drops; this happens before [main] runs the loop. *)
Theorem parse_commands_check_mode (module : AnsibleModule) (warnings : list string) :
  check_mode module = true ->
  exists commands dropped,
    parse_commands module warnings =
      inr (commands, (warnings ++ (check_mode_warning <$> dropped))%list)
    /\ commands = List.filter (fun item => startswith (command item) "show")
                    (transform_commands module)
    /\ dropped = List.filter (fun item => negb (startswith (command item) "show"))
                   (transform_commands module)
    /\ (forall item, item ∈ commands <->
          item ∈ transform_commands module /\ startswith (command item) "show" = true).
Proof.
  intros H. eexists _, _. split; [apply (parse_commands_filter module warnings H)|].
  split; [reflexivity|]. split; [reflexivity|].
  intros item. rewrite !list_elem_of_In. apply filter_In.
Qed.

(** Outside check mode the commands are left as they are. *)
Lemma parse_commands_run_mode (module : AnsibleModule) (warnings : list string) :
  check_mode module = false ->
  parse_commands module warnings = inr (transform_commands module, warnings).
Proof. intros H. unfold parse_commands. now rewrite H. Qed.

End ParseCommands.

(** ** modules/aos_command.py: the retry loop *)

Section RetryLoop.
Import Py Cliconf AosCommand.
Context {W R : Type} `{!Runner W R} `{!ConditionalParser R}.

(** The objects built from [wait_for] are numbered from [next] on, keep
    their source text as [raw], and evaluate as the parser says. *)
Lemma new_conditionals_spec (wait_for : list string) :
  forall (next : nat) (l : list (Conditional R)),
  new_conditionals next wait_for = inr l ->
  ident <$> l = seq next (length wait_for)
  /\ raw <$> l = wait_for
  /\ Forall (fun c => parse_conditional (raw c) = inr (call c)) l.
Proof.
  induction wait_for as [|c rest IH]; intros next l H; cbn [new_conditionals] in H.
  - injection H as <-. repeat split. constructor.
  - destruct (parse_conditional c) as [exc|f] eqn:Hc; [discriminate|].
    destruct (new_conditionals (S next) rest) as [exc|l'] eqn:Hl; [discriminate|].
    injection H as <-. destruct (IH _ _ Hl) as (Hi & Hr & Hf).
    cbn [fmap list_fmap ident raw length seq]. rewrite Hi, Hr.
    repeat split. constructor; [exact Hc | exact Hf].
Qed.

Lemma new_conditionals_NoDup (wait_for : list string) (l : list (Conditional R)) :
  new_conditionals 0 wait_for = inr l -> NoDup (ident <$> l).
Proof.
  intros H. apply new_conditionals_spec in H as (-> & _). apply NoDup_seq.
Qed.

(** With a match other than [any], one pass over the pending list takes
    away the conditionals that hold on the responses and keeps the
    others. *)
Lemma check_conditionals_all (match_ : string) (responses : list R)
    (items : list (Conditional R)) :
  forall kept : list (Conditional R),
  match_ <> "any" ->
  NoDup (ident <$> (kept ++ items)%list) ->
  check_conditionals match_ responses items (kept ++ items) =
    inr (kept ++ List.filter (fun c => negb (call c responses)) items)%list.
Proof.
  induction items as [|item rest IH]; intros kept Hm Hnd.
  - cbn. now rewrite !app_nil_r.
  - cbn [check_conditionals List.filter].
    destruct (call item responses) eqn:E; cbn [negb].
    + destruct (String.eqb_spec match_ "any"); [contradiction|].
      rewrite remove_first.
      * apply IH; [exact Hm|].
        rewrite fmap_app in *. cbn [fmap list_fmap] in Hnd.
        apply NoDup_app in Hnd as (Hk & Hd & Hr).
        apply NoDup_cons in Hr as [_ Hr].
        apply NoDup_app. repeat split; [exact Hk | | exact Hr].
        intros x Hx Hx'. apply (Hd x Hx). now right.
      * rewrite fmap_app in Hnd. cbn [fmap list_fmap] in Hnd.
        apply NoDup_app in Hnd as (_ & Hd & _).
        apply Forall_forall. intros y Hy. apply Nat.eqb_neq. intros Heq.
        apply (Hd (ident y)).
        -- apply list_elem_of_fmap. exists y. split; [reflexivity | exact Hy].
        -- rewrite Heq. now left.
      * apply Nat.eqb_refl.
    + replace (kept ++ item :: rest)%list with ((kept ++ [item]) ++ rest)%list
        by now rewrite <- app_assoc.
      rewrite IH; [now rewrite <- app_assoc | exact Hm |].
      now rewrite <- app_assoc.
Qed.

(** With match [any], one conditional that holds clears the list. *)
Lemma check_conditionals_any (responses : list R) (items : list (Conditional R)) :
  forall conditionals : list (Conditional R),
  check_conditionals "any" responses items conditionals =
    inr (if existsb (fun c => call c responses) items then [] else conditionals).
Proof.
  induction items as [|item rest IH]; intros conditionals; [reflexivity|].
  cbn [check_conditionals existsb].
  destruct (call item responses); [reflexivity|]. apply IH.
Qed.




(** A turn whose batch comes back: the loop breaks when nothing is
    pending, and else pauses and takes one retry off. *)
Lemma loop_body_step (module : AnsibleModule) (commands : list command_dict)
    (st : loop_state) (responses : list R) (w : W)
    (pending : list (Conditional R)) :
  run_commands commands (st_world st) = (inr responses, w) ->
  check_conditionals (match_ module) responses (st_conditionals st)
    (st_conditionals st) = inr pending ->
  0 <= interval module ->
  loop_body module commands st =
    match pending with
    | [] =>
        (Break,
         {| st_retries := st_retries st; st_conditionals := [];
            st_responses := Some responses; st_world := w;
            attempts := S (attempts st); slept := slept st |})
    | _ =>
        (Continue,
         {| st_retries := st_retries st - 1; st_conditionals := pending;
            st_responses := Some responses; st_world := w;
            attempts := S (attempts st); slept := slept st ++ [interval module] |})
    end.
Proof.
  intros Hrun Hcheck Hint. unfold loop_body. rewrite Hrun, Hcheck.
  destruct pending; [reflexivity|].
  destruct (Z.ltb_spec (interval module) 0); [lia | reflexivity].
Qed.

(** The loop stops with success as soon as nothing is pending. *)
Lemma while_loop_break (module : AnsibleModule) (commands : list command_dict)
    (st : loop_state) (responses : list R) (w : W) (fuel : nat) :
  0 <= st_retries st ->
  run_commands commands (st_world st) = (inr responses, w) ->
  check_conditionals (match_ module) responses (st_conditionals st)
    (st_conditionals st) = inr [] ->
  exists st',
    while_loop (S fuel) module commands st = Some (None, st')
    /\ attempts st' = S (attempts st)
    /\ forall warnings, after_loop warnings st' = ExitJson false warnings responses.
Proof.
  intros Hr Hrun Hcheck. cbn [while_loop].
  destruct (Z.leb_spec 0 (st_retries st)); [|lia].
  unfold loop_body. rewrite Hrun, Hcheck.
  eexists. split; [reflexivity|]. split; reflexivity.
Qed.

(** Two conditionals, one met by the first batch and the other by the
    second: the run succeeds on the second batch. *)
Lemma two_conditionals_two_attempts (module : AnsibleModule)
    (commands : list command_dict) (warnings : list string)
    (s1 s2 : string) (f1 f2 : list R -> bool) (w0 w1 w2 : W) (r1 r2 : list R) :
  wait_for module = Some [s1; s2] ->
  match_ module = "all" -> retries module = 2 -> 0 <= interval module ->
  parse_commands module [] = inr (commands, warnings) ->
  parse_conditional s1 = inr f1 -> parse_conditional s2 = inr f2 ->
  run_commands commands w0 = (inr r1, w1) ->
  run_commands commands w1 = (inr r2, w2) ->
  (f1 r1 = true /\ f2 r1 = false /\ f2 r2 = true)
  \/ (f2 r1 = true /\ f1 r1 = false /\ f1 r2 = true) ->
  exists st,
    main (enough_fuel module) module w0 = Some (ExitJson false warnings r2, Some st)
    /\ attempts st = 2%nat /\ st_conditionals st = [] /\ st_world st = w2.
Proof.
  intros Hwait Hmatch Hretries Hint Hparse Hp1 Hp2 Hrun1 Hrun2 Hcase.
  unfold main, enough_fuel. rewrite Hparse, Hwait, Hretries.
  cbn [default from_option id new_conditionals]. rewrite Hp1, Hp2.
  change (Z.to_nat (2 + 1)) with 3%nat.
  set (c1 := {| ident := 0; raw := s1; call := f1 |}).
  set (c2 := {| ident := 1; raw := s2; call := f2 |}).
  cbn [while_loop st_retries]. change (0 <=? 2) with true. cbv iota.
  destruct Hcase as [(H11 & H21 & H22) | (H21 & H11 & H12)].
  - erewrite loop_body_step with (pending := [c2]); [|exact Hrun1| |exact Hint].
    2:{ rewrite Hmatch. cbn [st_conditionals check_conditionals call c1 c2].
        rewrite H11, H21. reflexivity. }
    cbn [st_retries]. change (0 <=? 2 - 1) with true. cbv iota.
    erewrite loop_body_step with (pending := []); [|exact Hrun2| |exact Hint].
    2:{ rewrite Hmatch. cbn [st_conditionals check_conditionals call c2].
        rewrite H22. reflexivity. }
    eexists. split; [reflexivity|]. repeat split.
  - erewrite loop_body_step with (pending := [c1]); [|exact Hrun1| |exact Hint].
    2:{ rewrite Hmatch. cbn [st_conditionals check_conditionals call c1 c2].
        rewrite H11, H21. reflexivity. }
    cbn [st_retries]. change (0 <=? 2 - 1) with true. cbv iota.
    erewrite loop_body_step with (pending := []); [|exact Hrun2| |exact Hint].
    2:{ rewrite Hmatch. cbn [st_conditionals check_conditionals call c1].
        rewrite H12. reflexivity. }
    eexists. split; [reflexivity|]. repeat split.
Qed.

(** [main] runs the loop on what [parse_commands] returns: in check
    mode the batches hold the [show] commands only. *)
Lemma main_check_mode (fuel : nat) (module : AnsibleModule) (w : W) :
  check_mode module = true ->
  main fuel module w =
    match new_conditionals 0 (default [] (wait_for module)) with
    | inl (AttributeError exc) => Some (FailJson exc None, None)
    | inl exc => Some (Uncaught exc, None)
    | inr conditionals =>
        match while_loop fuel module
                (List.filter (fun item => startswith (command item) "show")
                   (transform_commands module))
                {| st_retries := retries module; st_conditionals := conditionals;
                   st_responses := None; st_world := w; attempts := 0; slept := [] |}
        with
        | None => None
        | Some (Some o, st') => Some (o, Some st')
        | Some (None, st') =>
            Some (after_loop
                    (check_mode_warning
                     <$> List.filter (fun item => negb (startswith (command item) "show"))
                           (transform_commands module)) st', Some st')
        end
    end.
Proof.
  intros H. unfold main. rewrite (parse_commands_filter module [] H).
  reflexivity.
Qed.



(** C3: with a match other than [any], a pass takes each conditional
    that holds on the batch out of the pending list, whatever it does on
    later batches; with match [any], one conditional that holds clears
    the list; the loop leaves with success once the list is empty. Hence
    with two retries and two conditionals, one met by the first batch and
    the other by the second, the run succeeds after two batches. *)
Theorem wait_for_loop :
  (forall (match_ : string) (responses : list R) (conditionals : list (Conditional R)),
      match_ <> "any" -> NoDup (ident <$> conditionals) ->
      check_conditionals match_ responses conditionals conditionals =
        inr (List.filter (fun c => negb (call c responses)) conditionals))
  /\ (forall (responses : list R) (conditionals : list (Conditional R)),
      check_conditionals "any" responses conditionals conditionals =
        inr (if existsb (fun c => call c responses) conditionals
             then [] else conditionals))
  /\ (forall (module : AnsibleModule) (commands : list command_dict) (st : loop_state)
            (responses : list R) (w : W) (fuel : nat),
      0 <= st_retries st ->
      run_commands commands (st_world st) = (inr responses, w) ->
      check_conditionals (match_ module) responses (st_conditionals st)
        (st_conditionals st) = inr [] ->
      exists st',
        while_loop (S fuel) module commands st = Some (None, st')
        /\ attempts st' = S (attempts st)
        /\ forall warnings, after_loop warnings st' = ExitJson false warnings responses)
  /\ (forall (module : AnsibleModule) (commands : list command_dict)
            (warnings : list string) (s1 s2 : string) (f1 f2 : list R -> bool)
            (w0 w1 w2 : W) (r1 r2 : list R),
      wait_for module = Some [s1; s2] ->
      match_ module = "all" -> retries module = 2 -> 0 <= interval module ->
      parse_commands module [] = inr (commands, warnings) ->
      parse_conditional s1 = inr f1 -> parse_conditional s2 = inr f2 ->
      run_commands commands w0 = (inr r1, w1) ->
      run_commands commands w1 = (inr r2, w2) ->
      (f1 r1 = true /\ f2 r1 = false /\ f2 r2 = true)
      \/ (f2 r1 = true /\ f1 r1 = false /\ f1 r2 = true) ->
      exists st,
        main (enough_fuel module) module w0 = Some (ExitJson false warnings r2, Some st)
        /\ attempts st = 2%nat /\ st_conditionals st = [] /\ st_world st = w2).
Proof.
  split; [|split; [|split]].
  - intros m responses conditionals Hm Hnd.
    apply (check_conditionals_all m responses conditionals [] Hm Hnd).
  - intros responses conditionals. apply check_conditionals_any.
  - intros module commands st responses w fuel. apply while_loop_break.
  - intros module commands warnings s1 s2 f1 f2 w0 w1 w2 r1 r2.
    apply two_conditionals_two_attempts.
Qed.


End RetryLoop.

Lemma parse_commands_check_mode_witness :
  exists commands dropped,
    AosCommand.parse_commands Scenario.check_mode_module [] =
      inr (commands, ([] ++ (AosCommand.check_mode_warning <$> dropped))%list)
    /\ commands = [Cliconf.of_command "show vlan"; Cliconf.of_command "show chassis"]
    /\ dropped = [Cliconf.of_command "write memory"]
    /\ (forall item, item ∈ commands <->
          item ∈ AosCommand.transform_commands Scenario.check_mode_module
          /\ Py.startswith (Cliconf.command item) "show" = true).
Proof.
  exact (parse_commands_check_mode Scenario.check_mode_module [] eq_refl).
Defined.

Lemma wait_for_loop_witness :
  exists st,
    AosCommand.main (AosCommand.enough_fuel Scenario.two_waits) Scenario.two_waits
      [inr ["port Up"]; inr ["system Ready"]]
    = Some (AosCommand.ExitJson false [] ["system Ready"], Some st)
    /\ AosCommand.attempts st = 2%nat
    /\ AosCommand.st_conditionals st = []
    /\ AosCommand.st_world st = [].
Proof.
  refine (proj2 (proj2 (proj2 (wait_for_loop (W := list (string + list string))
                                 (R := string))))
            Scenario.two_waits [Cliconf.of_command "show interfaces"] []
            "Up" "Ready"
            (fun responses => match responses with
                              | r :: _ => Py.contains "Up" r
                              | [] => false
                              end)
            (fun responses => match responses with
                              | r :: _ => Py.contains "Ready" r
                              | [] => false
                              end)
            [inr ["port Up"]; inr ["system Ready"]] [inr ["system Ready"]] []
            ["port Up"] ["system Ready"]
            eq_refl eq_refl eq_refl _ eq_refl eq_refl eq_refl eq_refl eq_refl
            (or_introl (conj eq_refl (conj eq_refl eq_refl)))).
  discriminate.
Defined.



(** ** module_utils/network/aos/aos.py: the cached running configuration *)

(** The running source in text format: one call, with the flags after the
    fixed command. *)
Lemma get_config_running {D : Type} `{!Cliconf.Transport D} (flags : list string)
    (c : Cliconf.connection D) :
  Cliconf.get_config "running" (Some flags) "text" c =
    Cliconf.send_command
      (Cliconf.of_command
         (Py.strip ("show configuration snapshot " ++ Py.join " " flags))) c.
Proof. reflexivity. Qed.


Section CliFacts.
Import Py Cliconf ModuleUtils.
Context {D : Type} `{!Transport D} `{!RpcError}.

(** On a miss of the cache, the module side fetches the running
    configuration, whatever the flags, and keeps the answer with the white
    space of both ends removed. *)
Lemma cli_get_config_miss (flags : option (list string)) (self : Cli D) :
  let cmd := strip ("show configuration snapshot " ++ join " " (default [] flags)) in
  _device_configs self !! cmd = None ->
  ModuleUtils.get_config flags self =
    match send_command_on (of_command cmd) (device (_connection self)) with
    | (inr out, d) =>
        (inr (strip out),
         {| _device_configs := <[cmd := strip out]> (_device_configs self);
            _connection := {| device := d;
                              sent := sent (_connection self) ++ [of_command cmd] |} |})
    | (inl exc, d) =>
        (inl (error_text exc),
         {| _device_configs := _device_configs self;
            _connection := {| device := d;
                              sent := sent (_connection self) ++ [of_command cmd] |} |})
    end.
Proof.
  intros cmd Hmiss. unfold ModuleUtils.get_config. fold cmd. rewrite Hmiss.
  rewrite get_config_running. fold cmd. unfold send_command.
  destruct (send_command_on (of_command cmd) (device (_connection self))) as [[exc|out] d];
    reflexivity.
Qed.

(** On a hit nothing is sent. *)
Lemma cli_get_config_hit (flags : option (list string)) (self : Cli D) (cfg : string) :
  _device_configs self
    !! strip ("show configuration snapshot " ++ join " " (default [] flags)) = Some cfg ->
  ModuleUtils.get_config flags self = (inr cfg, self).
Proof. intros Hhit. unfold ModuleUtils.get_config. now rewrite Hhit. Qed.

End CliFacts.

(** * Further properties of the code *)

(** ** utils.py: interface numbers *)

Section InterfaceNumber.
Import Py Utils.

Lemma append_assoc (a b c : string) : (a ++ b) ++ c = a ++ (b ++ c).
Proof.
  induction a as [|x a IH]; [reflexivity|].
  change ((String x a ++ b) ++ c) with (String x ((a ++ b) ++ c)).
  now rewrite IH.
Qed.

Lemma list_ascii_of_append (a b : string) :
  list_ascii_of_string (a ++ b)
  = (list_ascii_of_string a ++ list_ascii_of_string b)%list.
Proof.
  induction a as [|x a IH]; [reflexivity|].
  change (String x a ++ b) with (String x (a ++ b)).
  cbn [list_ascii_of_string app]. now rewrite IH.
Qed.

(** The text built so far is a prefix of the result. *)
Lemma get_interface_number_loop_acc (name : string) : forall digits : string,
  get_interface_number_loop name digits
  = digits ++ get_interface_number_loop name "".
Proof.
  induction name as [|char rest IH]; intros digits; cbn [get_interface_number_loop].
  - now rewrite append_empty_r.
  - destruct (isdigit char || char_in char "/.").
    + rewrite (IH (digits ++ String char "")), (IH ("" ++ String char "")).
      now rewrite append_assoc.
    + apply IH.
Qed.

Lemma get_interface_number_cons (char : ascii) (rest : string) :
  get_interface_number (String char rest)
  = if isdigit char || char_in char "/."
    then String char (get_interface_number rest)
    else get_interface_number rest.
Proof.
  unfold get_interface_number. cbn [get_interface_number_loop].
  destruct (isdigit char || char_in char "/."); [|reflexivity].
  now rewrite get_interface_number_loop_acc.
Qed.

(** X1: [get_interface_number] keeps the characters of the name that are
    digits, slashes or dots, all of them and in their order, and drops
    every other character. *)
Theorem get_interface_number_filter (name : string) :
  list_ascii_of_string (get_interface_number name)
  = List.filter (fun char => isdigit char || char_in char "/.")
      (list_ascii_of_string name).
Proof.
  induction name as [|char rest IH]; [reflexivity|].
  rewrite get_interface_number_cons. cbn [list_ascii_of_string List.filter].
  destruct (isdigit char || char_in char "/."); [|exact IH].
  cbn [list_ascii_of_string]. now rewrite IH.
Qed.

Lemma get_interface_number_append (a b : string) :
  get_interface_number (a ++ b) = get_interface_number a ++ get_interface_number b.
Proof.
  induction a as [|char a IH]; [reflexivity|].
  change (String char a ++ b) with (String char (a ++ b)).
  rewrite !get_interface_number_cons, IH.
  destruct (isdigit char || char_in char "/."); reflexivity.
Qed.

(** X2: the number of a name made of two parts is the number of the first
    part followed by the number of the second, and taking the number of a
    number changes nothing. *)
Theorem get_interface_number_compose (a b : string) :
  get_interface_number (a ++ b) = get_interface_number a ++ get_interface_number b
  /\ get_interface_number (get_interface_number a) = get_interface_number a.
Proof.
  split; [apply get_interface_number_append|].
  induction a as [|char a IH]; [reflexivity|].
  rewrite get_interface_number_cons.
  destruct (isdigit char || char_in char "/.") eqn:E; [|exact IH].
  now rewrite get_interface_number_cons, E, IH.
Qed.

End InterfaceNumber.

(** ** utils.py: the parts of a vlan specification *)

Section VlanParts.
Import Py Utils.

Lemma split_nonempty (sep : ascii) (s : string) : split sep s <> [].
Proof.
  destruct s as [|c s]; cbn [split]; [discriminate|].
  destruct (Ascii.eqb c sep); [discriminate|].
  destruct (split sep s); discriminate.
Qed.

(** A text without the separator is one piece. *)
Lemma split_without (sep : ascii) (s : string) :
  char_in sep s = false -> split sep s = [s].
Proof.
  induction s as [|c s IH]; [reflexivity|]. cbn [char_in split]. intros H.
  apply orb_false_iff in H as [Hc Hs]. rewrite Ascii.eqb_sym, Hc, (IH Hs).
  reflexivity.
Qed.

(** The pieces of a text cut at a separator: those of what precedes it,
    then those of what follows. *)
Lemma split_at (sep : ascii) (a b : string) :
  char_in sep a = false ->
  split sep (a ++ String sep b) = a :: split sep b.
Proof.
  induction a as [|c a IH]; intros H.
  - change ("" ++ String sep b) with (String sep b). cbn [split].
    now rewrite Ascii.eqb_refl.
  - cbn [char_in] in H. apply orb_false_iff in H as [Hc Ha].
    change (String c a ++ String sep b) with (String c (a ++ String sep b)).
    cbn [split]. now rewrite Ascii.eqb_sym, Hc, (IH Ha).
Qed.

Lemma contains_dash (s : string) : contains "-" s = char_in "-" s.
Proof.
  induction s as [|c s IH]; [reflexivity|].
  cbn [contains char_in String.prefix]. rewrite IH.
  destruct (Ascii.ascii_dec "-" c) as [<-|Hne].
  - rewrite Ascii.eqb_refl. now destruct s.
  - apply Ascii.eqb_neq in Hne. rewrite Hne. reflexivity.
Qed.

Lemma char_in_append (c : ascii) (a b : string) :
  char_in c (a ++ b) = char_in c a || char_in c b.
Proof.
  induction a as [|x a IH]; [reflexivity|].
  change (String x a ++ b) with (String x (a ++ b)). cbn [char_in].
  now rewrite IH, orb_assoc.
Qed.

(** A part with a dash is not the word [none]. *)
Lemma dashed_not_none (part : string) :
  char_in "-" part = true -> String.eqb part "none" = false.
Proof.
  intros H. apply String.eqb_neq. intros ->. discriminate H.
Qed.

(** X3: a part [a-b], with [a] and [b] integer literals, adds every id
    from [a] to [b], both included, to the result, and adds nothing when
    [b] is below [a]; the parts after it are read as before. *)
Theorem vlan_parts_range (sa sb : string) (a b : Z) (rest : list string)
    (result : list Z) :
  char_in "-" sa = false -> char_in "-" sb = false ->
  int sa = Some a -> int sb = Some b ->
  vlan_parts ((sa ++ "-" ++ sb) :: rest) result
    = vlan_parts rest (result ++ range a (b + 1))
  /\ (forall x, x ∈ range a (b + 1) <-> a <= x <= b)
  /\ (b < a -> vlan_parts ((sa ++ "-" ++ sb) :: rest) result = vlan_parts rest result).
Proof.
  intros Ha Hb Hia Hib.
  assert (Hd : char_in "-" (sa ++ "-" ++ sb) = true).
  { rewrite char_in_append. change ("-" ++ sb) with (String "-" sb).
    cbn [char_in]. rewrite Ascii.eqb_refl. apply orb_true_r. }
  assert (E : vlan_parts ((sa ++ "-" ++ sb) :: rest) result
              = vlan_parts rest (result ++ range a (b + 1))).
  { cbn [vlan_parts]. rewrite (dashed_not_none _ Hd), contains_dash, Hd.
    change ("-" ++ sb) with (String "-" sb).
    rewrite (split_at "-" sa sb Ha), (split_without "-" sb Hb).
    unfold int_or_raise. now rewrite Hia, Hib. }
  split; [exact E|]. split; [apply elem_of_range|].
  intros Hlt. rewrite E. unfold range.
  replace (Z.to_nat (b + 1 - a)) with 0%nat by lia. cbn. now rewrite app_nil_r.
Qed.

(** X4: a part with two dashes, and a part that begins with a dash such
    as a negative number, make the loop fail with a [ValueError]: the
    first when the two ends are unpacked, the second when the empty text
    before the dash is read as an integer. *)
Theorem vlan_parts_malformed (rest : list string) (result : list Z) :
  (forall a b c : string,
      vlan_parts ((a ++ "-" ++ b ++ "-" ++ c) :: rest) result
      = inl (ValueError "too many values to unpack (expected 2)"))
  /\ (forall b : string,
        char_in "-" b = false ->
        exists msg, vlan_parts (("-" ++ b) :: rest) result = inl (ValueError msg)).
Proof.
  split.
  - intros a b c.
    assert (Hd : char_in "-" (a ++ "-" ++ b ++ "-" ++ c) = true).
    { rewrite char_in_append. change ("-" ++ b ++ "-" ++ c) with (String "-" (b ++ "-" ++ c)).
      cbn [char_in]. rewrite Ascii.eqb_refl. apply orb_true_r. }
    cbn [vlan_parts]. rewrite (dashed_not_none _ Hd), contains_dash, Hd.
    assert (Hlen : forall s t : string,
               (length (split "-" t) < length (split "-" (s ++ String "-" t)))%nat).
    { intros s t. induction s as [|x s IH].
      - change ("" ++ String "-" t) with (String "-" t). cbn [split].
        rewrite Ascii.eqb_refl. cbn [length]. lia.
      - change (String x s ++ String "-" t) with (String x (s ++ String "-" t)).
        cbn [split]. destruct (Ascii.eqb x "-"); [cbn [length]; lia|].
        destruct (split "-" (s ++ String "-" t)) eqn:E; [cbn [length] in IH; lia|].
        exact IH. }
    pose proof (Hlen a (b ++ String "-" c)) as H1.
    pose proof (Hlen b c) as H2.
    change ("-" ++ b ++ "-" ++ c) with (String "-" (b ++ String "-" c)).
    pose proof (split_nonempty "-" c) as H3.
    destruct (split "-" c) as [|? ?]; [contradiction|].
    destruct (split "-" (b ++ String "-" c)) as [|? [|? ?]]; cbn [length] in H2; try lia.
    destruct (split "-" (a ++ String "-" (b ++ String "-" c))) as [|? [|? [|? ?]]];
      cbn [length] in H1; try lia; reflexivity.
  - intros b Hb.
    assert (Hd : char_in "-" ("-" ++ b) = true) by reflexivity.
    cbn [vlan_parts]. rewrite (dashed_not_none _ Hd), contains_dash, Hd.
    change ("-" ++ b) with ("" ++ String "-" b).
    rewrite (split_at "-" "" b eq_refl), (split_without "-" b Hb).
    eexists. reflexivity.
Qed.

(** X5: whatever order the set takes, a specification whose parts are
    read without error comes back without duplicates and with exactly the
    ids the parts gave: none is lost and none is invented. *)
Theorem vlan_range_to_list_elements (set_order : list Z -> list Z)
    (vlans : vlans_arg) (ids : list Z) :
  set_contract set_order ->
  truthy vlans = true ->
  vlan_parts (match vlans with
              | VStr s => split "," s
              | VList l => l
              | VNone => []
              end) [] = inr ids ->
  exists l,
    vlan_range_to_list set_order vlans = inr l
    /\ NoDup l /\ forall x, x ∈ l <-> x ∈ ids.
Proof.
  intros Hc Ht Hp. unfold vlan_range_to_list. rewrite Ht, Hp.
  eexists. split; [reflexivity|]. now apply numerical_sort_elements.
Qed.

End VlanParts.

(** ** White space *)

Section StripFacts.
Import Py.

Lemma rstrip_idempotent (s : string) : rstrip (rstrip s) = rstrip s.
Proof.
  induction s as [|c s IH]; [reflexivity|]. cbn [rstrip].
  destruct (rstrip s) as [|d r] eqn:E.
  - destruct (isspace c) eqn:Ec; [reflexivity|]. cbn [rstrip]. now rewrite Ec.
  - cbn [rstrip]. cbn [rstrip] in IH. now rewrite IH.
Qed.

(** Taking white space off the end leaves the start as it is. *)
Lemma lstrip_rstrip (s : string) : lstrip s = s -> lstrip (rstrip s) = rstrip s.
Proof.
  destruct s as [|c s]; [reflexivity|]. cbn [lstrip rstrip].
  destruct (isspace c) eqn:Ec.
  - intros H. exfalso.
    assert (Hlen : forall t, (String.length (lstrip t) <= String.length t)%nat).
    { induction t as [|x t IHt]; cbn [lstrip]; [reflexivity|].
      destruct (isspace x); cbn [String.length] in *; lia. }
    pose proof (Hlen s) as Hl. rewrite H in Hl. cbn [String.length] in Hl. lia.
  - intros _. destruct (rstrip s); cbn [lstrip]; now rewrite Ec.
Qed.

Lemma lstrip_idempotent (s : string) : lstrip (lstrip s) = lstrip s.
Proof.
  induction s as [|c s IH]; [reflexivity|]. cbn [lstrip].
  destruct (isspace c) eqn:Ec; [exact IH|]. cbn [lstrip]. now rewrite Ec.
Qed.

Lemma strip_idempotent (s : string) : strip (strip s) = strip s.
Proof.
  unfold strip. rewrite (lstrip_rstrip (lstrip s) (lstrip_idempotent s)).
  apply rstrip_idempotent.
Qed.

(** A text with the commas of its end taken off does not end with a
    comma. *)
Lemma rstrip_comma_end (s t : string) : rstrip_chars "," s <> t ++ ",".
Proof.
  revert t. induction s as [|c s IH]; intros t.
  - destruct t; discriminate.
  - cbn [rstrip_chars]. destruct (rstrip_chars "," s) as [|d r] eqn:E.
    + destruct (char_in c ",") eqn:Ec; [destruct t; discriminate|].
      destruct t as [|x [|y t]]; try discriminate.
      intros [= ->]. discriminate Ec.
    + destruct t as [|x t]; [discriminate|].
      change (String x t ++ ",") with (String x (t ++ ",")).
      intros [= _ H]. exact (IH t H).
Qed.

End StripFacts.

(** ** cliconf/aos.py: what run_commands returns *)

Section RunCommandsMore.
Import Py Cliconf.
Context {D J : Type} `{!Transport D} `{!JsonLoads J}.

(** A loop that returns has made one entry and one call for each command,
    in the order of the list. *)
Lemma run_commands_loop_success (check_rc : bool) (cmds : list cmd_arg) :
  forall (responses rs : list (response J)) (c c' : connection D),
  run_commands_loop check_rc cmds responses c = (inr rs, c') ->
  exists (new : list (response J)) (calls : list command_dict),
    rs = (responses ++ new)%list
    /\ sent c' = (sent c ++ calls)%list
    /\ Forall2 (fun cmd kwargs =>
                  command_text (as_dict cmd) = inr (command kwargs)
                  /\ kwargs = with_command (as_dict cmd) (command kwargs)) cmds calls
    /\ Forall2 (fun cmd r => exists out : string, r = entry out) cmds new.
Proof.
  induction cmds as [|cmd cmds IH]; intros responses rs c c' H.
  - injection H as <- <-. exists [], []. rewrite !app_nil_r.
    repeat split; constructor.
  - rewrite run_commands_loop_cons, run_command_unfold in H.
    destruct (command_text (as_dict cmd)) as [e|text] eqn:Ht; [discriminate|].
    cbv zeta in H.
    set (kwargs := with_command (as_dict cmd) text) in *.
    set (c1 := {| device := _; sent := _ |}) in *.
    assert (Hnext : forall out,
               run_commands_loop check_rc cmds (responses ++ [entry out]) c1 = (inr rs, c') ->
               exists new calls,
                 rs = (responses ++ new)%list /\ sent c' = (sent c ++ calls)%list
                 /\ Forall2 (fun cmd kwargs =>
                      command_text (as_dict cmd) = inr (command kwargs)
                      /\ kwargs = with_command (as_dict cmd) (command kwargs))
                      (cmd :: cmds) calls
                 /\ Forall2 (fun cmd r => exists out : string, r = entry out)
                      (cmd :: cmds) new).
    { intros out Hrun. destruct (IH _ _ _ _ Hrun) as (new & calls & -> & Hs & Hc & Hn).
      exists (entry out :: new), (kwargs :: calls).
      rewrite <- !app_assoc. cbn [app]. split; [reflexivity|].
      split; [rewrite Hs; subst c1; cbn [sent]; now rewrite <- app_assoc|].
      split; constructor; try assumption; [|now exists out].
      subst kwargs. cbn [command with_command]. rewrite Ht. split; reflexivity. }
    destruct (send_command_on kwargs (device c)).1 as [[]|out]; try discriminate;
      [|now apply (Hnext out)].
    destruct check_rc; [discriminate|]. now apply (Hnext (default message err)).
Qed.

(** X7: when [run_commands] returns, it returns one entry for each
    command and has made one call to the device for each command, in the
    order of the list, each with the text [_get_command_with_output] gives
    for it and with the [output] and [version] keys taken off. *)
Theorem run_commands_aligned (check_rc : bool) (cmds : list cmd_arg)
    (rs : list (response J)) (c c' : connection D) :
  run_commands (Some cmds) check_rc c = (inr rs, c') ->
  length rs = length cmds
  /\ exists calls : list command_dict,
       sent c' = (sent c ++ calls)%list
       /\ Forall2 (fun cmd kwargs =>
                     command_text (as_dict cmd) = inr (command kwargs)
                     /\ kwargs = with_command (as_dict cmd) (command kwargs)) cmds calls.
Proof.
  intros H. apply run_commands_loop_success in H as (new & calls & -> & Hs & Hc & Hn).
  split; [|now exists calls].
  cbn [app]. symmetry. eapply Forall2_length, Hn.
Qed.

(** X9: with [check_rc] false, [run_commands] does not raise as long as
    every [output] is valid and the device raises nothing but connection
    failures: it returns one entry for each command. *)
Theorem run_commands_unchecked_total (cmds : list cmd_arg) (c : connection D) :
  Forall (fun cmd => exists text, command_text (as_dict cmd) = inr text) cmds ->
  (forall kwargs d e, (send_command_on kwargs d).1 = inl e ->
                      exists err message, e = AnsibleConnectionFailure err message) ->
  exists rs c',
    run_commands (Some cmds) false c = (inr rs, c') /\ length rs = length cmds.
Proof.
  intros Hvalid Hdev. unfold run_commands.
  assert (H : forall responses c, exists rs c',
             run_commands_loop false cmds responses c = (inr rs, c')).
  { clear c. induction Hvalid as [|cmd cmds [text Ht] _ IH]; intros responses c.
    - eexists _, _. reflexivity.
    - rewrite run_commands_loop_cons, run_command_unfold, Ht. cbv zeta.
      destruct (send_command_on _ (device c)).1 as [e|out] eqn:E; [|apply IH].
      destruct (Hdev _ _ _ E) as (err & message & ->). apply IH. }
  destruct (H [] c) as (rs & c' & Hrun). exists rs, c'. split; [exact Hrun|].
  apply run_commands_loop_success in Hrun as (new & calls & -> & _ & _ & Hn).
  cbn [app]. symmetry. eapply Forall2_length, Hn.
Qed.

(** X10: a [format] that is not valid makes [get_config] fail with a
    [ValueError] that lists the valid values, before the source is looked
    at and without any call to the device. *)
Theorem get_config_invalid_format (source : string) (flags : option (list string))
    (format : string) (c : connection D) :
  mem format ["text"; "json"] = false ->
  get_config source flags format c =
    (inl (ValueError ("'format' value " ++ format
                      ++ " is invalid. Valid values are text,json")), c).
Proof.
  intros H. unfold get_config, mbind, M_bind, lift, raise.
  rewrite option_values_format, H. reflexivity.
Qed.

End RunCommandsMore.

(** ** cliconf/aos.py: edit_config *)

Section EditConfigFacts.
Import Py Cliconf.
Context {D : Type} `{!Transport D}.

Lemma edit_config_loop_cons (line : cmd_arg) (rest : list cmd_arg)
    (requests results : list string) (c : connection D) :
  edit_config_loop (line :: rest) requests results c =
    let c' := {| device := (send_command_on (as_dict line) (device c)).2;
                 sent := sent c ++ [as_dict line] |} in
    match (send_command_on (as_dict line) (device c)).1 with
    | inr out =>
        edit_config_loop rest (requests ++ [command (as_dict line)]) (results ++ [out]) c'
    | inl e => (inl e, c')
    end.
Proof.
  cbn [edit_config_loop]. unfold mbind, M_bind, send_command.
  destruct (send_command_on (as_dict line) (device c)) as [[e|out] d]; reflexivity.
Qed.

Lemma edit_config_loop_app (pre rest : list cmd_arg) :
  forall (requests results : list string) (c : connection D),
  edit_config_loop (pre ++ rest) requests results c =
    match edit_config_loop pre requests results c with
    | (inr r, c') => edit_config_loop rest (resp_request r) (resp_response r) c'
    | (inl e, c') => (inl e, c')
    end.
Proof.
  induction pre as [|line pre IH]; intros requests results c; [reflexivity|].
  cbn [app]. rewrite !edit_config_loop_cons. cbv zeta.
  destruct (send_command_on (as_dict line) (device c)).1; [reflexivity | apply IH].
Qed.

Lemma edit_config_loop_success (lines : list cmd_arg) :
  forall (requests results : list string) (c c' : connection D) (r : edit_resp),
  edit_config_loop lines requests results c = (inr r, c') ->
  resp_request r = (requests ++ ((fun line => command (as_dict line)) <$> lines))%list
  /\ length (resp_response r) = (length results + length lines)%nat
  /\ sent c' = (sent c ++ (as_dict <$> lines))%list.
Proof.
  induction lines as [|line lines IH]; intros requests results c c' r H.
  - injection H as <- <-. cbn. now rewrite !app_nil_r, Nat.add_0_r.
  - rewrite edit_config_loop_cons in H. cbv zeta in H.
    destruct (send_command_on (as_dict line) (device c)).1 as [e|out]; [discriminate|].
    apply IH in H as (Hq & Hr & Hs). cbn [fmap list_fmap length sent] in *.
    rewrite Hq, Hr, Hs, <- !app_assoc, length_app. cbn [app length].
    repeat split; lia.
Qed.

(** X11: when [edit_config] returns, the [request] list holds the command
    of every line of the candidate in order, there is one answer for each
    line, and each line was sent once, in order, as it was given. *)
Theorem edit_config_success {A B : Type} (candidate : option (list cmd_arg))
    (replace : A) (comment : B) (c c' : connection D) (r : edit_resp) :
  edit_config candidate replace comment c = (inr r, c') ->
  resp_request r = (fun line => command (as_dict line)) <$> to_list candidate
  /\ length (resp_response r) = length (to_list candidate)
  /\ sent c' = (sent c ++ (as_dict <$> to_list candidate))%list.
Proof.
  intros H. now apply edit_config_loop_success in H.
Qed.

(** X12: when the device raises on a line, [edit_config] raises the same
    exception, whatever its kind; the line that failed is the last one
    sent, and the answers of the lines before it are not returned. *)
Theorem edit_config_failure {A B : Type} (pre : list cmd_arg) (line : cmd_arg)
    (post : list cmd_arg) (replace : A) (comment : B)
    (c c1 : connection D) (r : edit_resp) (e : exn) :
  edit_config (Some pre) replace comment c = (inr r, c1) ->
  (send_command_on (as_dict line) (device c1)).1 = inl e ->
  edit_config (Some (pre ++ line :: post)%list) replace comment c =
    (inl e, {| device := (send_command_on (as_dict line) (device c1)).2;
               sent := sent c ++ (as_dict <$> pre) ++ [as_dict line] |}).
Proof.
  unfold edit_config. cbn [to_list default from_option id]. intros Hpre Hsend.
  rewrite edit_config_loop_app, Hpre, edit_config_loop_cons. cbv zeta.
  rewrite Hsend. apply edit_config_loop_success in Hpre as (_ & _ & ->).
  now rewrite <- app_assoc.
Qed.

End EditConfigFacts.

(** ** cliconf/aos.py: get_device_info *)

Section DeviceInfoFacts.
Import Py Cliconf.
Context {D : Type} `{!Transport D} `{!Regex}.

(** The keyword arguments [get] sends a bare command with. *)
Let bare (cmd : string) : command_dict :=
  {| command := cmd; output := None; version := None; prompt := None;
     answer := None; newline := Some true; sendonly := Some false;
     check_all := Some false |}.

Lemma get_bare (cmd : string) (c : connection D) :
  get cmd None None false true None false None c =
    ((send_command_on (bare cmd) (device c)).1,
     {| device := (send_command_on (bare cmd) (device c)).2;
        sent := sent c ++ [bare cmd] |}).
Proof.
  unfold get, mbind, M_bind, mret, M_ret, send_command. cbn [truthy_str].
  destruct (send_command_on _ (device c)) as [[e|out] d]; reflexivity.
Qed.

(** What a reading that succeeds gives. *)
Lemma read_device_info_success (c c' : connection D) (info : gmap string string) :
  read_device_info c = (inr info, c') ->
  info !! "network_os" = Some "aos"
  /\ sent c' = (sent c ++ [bare "show microcode"; bare "show system"])%list
  /\ (forall h, info !! "network_os_hostname" = Some h ->
                exists m, h = rstrip_chars "," m).
Proof.
  unfold read_device_info. unfold mbind at 1. unfold M_bind at 1. rewrite get_bare.
  destruct (send_command_on (bare "show microcode") (device c)).1 as [e|reply];
    [discriminate|].
  cbv zeta.
  destruct (re_search "\b\d+\.\d+\.\d+\.\w+\b" (strip reply)) as [mv|];
  destruct (re_search "(/[\w/]+)" (strip reply)) as [mp|];
  destruct (re_search "\b(\w+\.\w+)\b" (strip reply)) as [mi|];
    unfold mbind, M_bind, mret, M_ret, raise; try discriminate;
    rewrite get_bare; cbn [device sent];
    match goal with
    | |- context [(send_command_on ?k ?d).1] =>
        destruct (send_command_on k d).1 as [e|reply2]; [discriminate|]
    end;
    destruct (re_search "Description:\s+.*?(\bOS[\w-]+)\b" (strip reply2)) as [mm|];
    destruct (re_search "Name:\s+(\S+),?" (strip reply2)) as [mh|];
    intros [= <- <-]; cbn [sent]; rewrite <- app_assoc;
    (split; [by simplify_map_eq|]); (split; [reflexivity|]);
    intros h Hh; simplify_map_eq; eauto.
Qed.

(** X13: once [get_device_info] has returned the facts, a second call
    returns the same facts and leaves the plugin as it is, without a call
    to the device; a call that raises leaves the cache as it was, so that
    the next call asks the device again. *)
Theorem get_device_info_cached (self self' : plugin D) :
  (forall info, get_device_info self = (inr info, self') ->
                get_device_info self' = (inr info, self'))
  /\ (forall e, get_device_info self = (inl e, self') ->
                _device_info self' = _device_info self).
Proof.
  unfold get_device_info. split.
  - intros info. destruct (bool_decide (_device_info self = ∅)) eqn:E.
    + destruct (read_device_info (_conn self)) as [[e|info'] c] eqn:R; [discriminate|].
      intros [= <- <-]. cbn [_device_info].
      apply read_device_info_success in R as (Hos & _).
      rewrite bool_decide_eq_false_2; [reflexivity|].
      intros ->. rewrite lookup_empty in Hos. discriminate.
    + intros [= <- <-]. now rewrite E.
  - intros e. destruct (bool_decide (_device_info self = ∅)); [|discriminate].
    destruct (read_device_info (_conn self)) as [[e'|info'] c]; [|discriminate].
    now intros [= <- <-].
Qed.

(** X14: the first call of [get_device_info] that returns has sent [show
    microcode] and then [show system], nothing else, each as a bare
    command; the facts name the system [aos] and are kept in the plugin. *)
Theorem get_device_info_first (self self' : plugin D) (info : gmap string string) :
  _device_info self = ∅ ->
  get_device_info self = (inr info, self') ->
  info !! "network_os" = Some "aos"
  /\ _device_info self' = info
  /\ sent (_conn self') =
       (sent (_conn self) ++ [bare "show microcode"; bare "show system"])%list.
Proof.
  intros Hempty. unfold get_device_info. rewrite bool_decide_eq_true_2 by exact Hempty.
  destruct (read_device_info (_conn self)) as [[e|info'] c] eqn:R; [discriminate|].
  intros [= <- <-]. apply read_device_info_success in R as (Hos & Hs & _).
  now repeat split.
Qed.

(** X15: when the answer to [show microcode] has a match for the image
    pattern and none for the path pattern, [get_device_info] raises a
    [NameError] for [path], after that one call and with the cache still
    empty. *)
Theorem get_device_info_unbound_path (self : plugin D) (reply : string)
    (image : nat -> string) :
  _device_info self = ∅ ->
  (send_command_on (bare "show microcode") (device (_conn self))).1 = inr reply ->
  re_search "(/[\w/]+)" (strip reply) = None ->
  re_search "\b(\w+\.\w+)\b" (strip reply) = Some image ->
  get_device_info self =
    (inl (NameError "path"),
     {| _device_info := ∅;
        _conn := {| device := (send_command_on (bare "show microcode")
                                 (device (_conn self))).2;
                    sent := sent (_conn self) ++ [bare "show microcode"] |} |}).
Proof.
  intros Hempty Hsend Hpath Himage. unfold get_device_info.
  rewrite bool_decide_eq_true_2 by exact Hempty. rewrite Hempty.
  unfold read_device_info. unfold mbind at 1. unfold M_bind at 1.
  rewrite get_bare, Hsend. cbv zeta. rewrite Hpath, Himage.
  destruct (re_search "\b\d+\.\d+\.\d+\.\w+\b" (strip reply)); reflexivity.
Qed.

(** X16: the host name among the facts read from the device never ends
    with a comma. *)
Theorem get_device_info_hostname (self self' : plugin D) (info : gmap string string)
    (hostname t : string) :
  _device_info self = ∅ ->
  get_device_info self = (inr info, self') ->
  info !! "network_os_hostname" = Some hostname ->
  hostname <> t ++ ",".
Proof.
  intros Hempty. unfold get_device_info. rewrite bool_decide_eq_true_2 by exact Hempty.
  destruct (read_device_info (_conn self)) as [[e|info'] c] eqn:R; [discriminate|].
  intros [= <- <-] Hh. apply read_device_info_success in R as (_ & _ & Hhost).
  destruct (Hhost _ Hh) as [m ->]. apply rstrip_comma_end.
Qed.

End DeviceInfoFacts.

(** ** module_utils/network/aos/aos.py: the Cli object *)

Section CliMore.
Import Py Cliconf ModuleUtils.
Context {D : Type} `{!Transport D} `{!RpcError} `{!RpcErr}.

(** X17: a configuration that [Cli.get_config] has returned is returned
    again for the same flags without a call to the device, and absent
    flags share the entry of an empty list of flags; a fetch that fails
    puts nothing in the cache. *)
Theorem cli_get_config_cached (flags : option (list string)) (self self' : Cli D) :
  (forall cfg, ModuleUtils.get_config flags self = (inr cfg, self') ->
               ModuleUtils.get_config flags self' = (inr cfg, self')
               /\ ModuleUtils.get_config (Some (default [] flags)) self' = (inr cfg, self'))
  /\ (forall msg, ModuleUtils.get_config flags self = (inl msg, self') ->
                  _device_configs self' = _device_configs self).
Proof.
  unfold ModuleUtils.get_config. cbn [default from_option id].
  set (cmd := strip ("show configuration snapshot " ++ join " " (default [] flags))).
  split.
  - intros cfg. destruct (_device_configs self !! cmd) as [cfg'|] eqn:E.
    + intros [= <- <-]. now rewrite E.
    + destruct (Cliconf.get_config _ _ _ _) as [[exc|out] conn]; [discriminate|].
      intros [= <- <-]. cbn [_device_configs]. now rewrite lookup_insert_eq.
  - intros msg. destruct (_device_configs self !! cmd) as [cfg'|]; [discriminate|].
    destruct (Cliconf.get_config _ _ _ _) as [[exc|out] conn]; [|discriminate].
    now intros [= <- <-].
Qed.

(** X18: if every configuration in the cache is free of white space at
    both ends, it is still so after [Cli.get_config], and the
    configuration returned is free of it too. *)
Theorem cli_get_config_stripped (flags : option (list string)) (self self' : Cli D)
    (result : string + string) :
  (forall cmd cfg, _device_configs self !! cmd = Some cfg -> strip cfg = cfg) ->
  ModuleUtils.get_config flags self = (result, self') ->
  (forall cmd cfg, _device_configs self' !! cmd = Some cfg -> strip cfg = cfg)
  /\ (forall cfg, result = inr cfg -> strip cfg = cfg).
Proof.
  intros Hinv. unfold ModuleUtils.get_config.
  set (cmd := strip ("show configuration snapshot " ++ join " " (default [] flags))).
  destruct (_device_configs self !! cmd) as [cfg'|] eqn:E.
  - intros [= <- <-]. split; [exact Hinv|]. intros cfg [= <-]. eapply Hinv, E.
  - destruct (Cliconf.get_config _ _ _ _) as [[exc|out] conn]; intros [= <- <-];
      cbn [_device_configs].
    + split; [exact Hinv | discriminate].
    + split; [|intros cfg [= <-]; apply strip_idempotent].
      intros k cfg. destruct (decide (cmd = k)) as [<-|Hne].
      * rewrite lookup_insert_eq. intros [= <-]. apply strip_idempotent.
      * rewrite lookup_insert_ne by exact Hne. apply Hinv.
Qed.

(** X19: when [load_config] returns what [edit_config] answered, every
    command was sent once and in order, the [request] list holds the
    commands, no warning was made and the cache of configurations is as
    it was. *)
Theorem load_config_edited (commands : option (list cmd_arg)) (commit replace : bool)
    (self self' : Cli D) (resp : edit_resp) (warnings : list string) :
  load_config commands commit replace self = (inr (Edited resp, warnings), self') ->
  warnings = []
  /\ resp_request resp = (fun line => command (as_dict line)) <$> to_list commands
  /\ sent (_connection self') =
       (sent (_connection self) ++ (as_dict <$> to_list commands))%list
  /\ _device_configs self' = _device_configs self.
Proof.
  unfold load_config.
  destruct (edit_config commands commit replace (_connection self))
    as [[exc|r] conn] eqn:E.
  - destruct (contains _ _); discriminate.
  - intros [= <- <- <-]. cbn [_connection _device_configs].
    apply edit_config_loop_success in E as (Hq & _ & Hs). now repeat split.
Qed.

End CliMore.

(** ** modules/aos_command.py: more on the commands and the loop *)

Section ParseCommandsMore.
Import Py Cliconf AosCommand.

Lemma list_filter_sublist {A} (f : A -> bool) (l : list A) :
  List.filter f l `sublist_of` l.
Proof.
  induction l as [|x l IH]; [constructor|]. cbn [List.filter].
  destruct (f x); [now apply sublist_skip | now apply sublist_cons].
Qed.

(** In either mode [parse_commands] returns: the removal in its loop
    always finds the item it removes. *)
Lemma parse_commands_returns (module : AnsibleModule) (warnings : list string) :
  exists commands added,
    parse_commands module warnings = inr (commands, (warnings ++ added)%list)
    /\ commands `sublist_of` transform_commands module
    /\ (check_mode module = false ->
        commands = transform_commands module /\ added = []).
Proof.
  destruct (check_mode module) eqn:E.
  - eexists _, _. split; [apply (parse_commands_filter module warnings E)|].
    split; [apply list_filter_sublist | discriminate].
  - exists (transform_commands module), []. rewrite app_nil_r.
    split; [now apply parse_commands_run_mode|]. split; [reflexivity | now split].
Qed.

(** X20: [parse_commands] never raises, in check mode or out of it: it
    returns commands of the module, in their order and without adding any,
    and the warnings it was given followed by those it adds. *)
Theorem parse_commands_total (module : AnsibleModule) (warnings : list string) :
  exists commands added,
    parse_commands module warnings = inr (commands, (warnings ++ added)%list)
    /\ commands `sublist_of` transform_commands module.
Proof.
  destruct (parse_commands_returns module warnings) as (commands & added & H1 & H2 & _).
  now exists commands, added.
Qed.

End ParseCommandsMore.

Section RetryLoopMore.
Import Py Cliconf AosCommand.
Context {W R : Type} `{!Runner W R} `{!ConditionalParser R}.

(** X21: without conditionals the commands are sent once, whatever the
    number of retries allowed: the run ends with the responses of that
    batch and takes no pause. *)
Theorem main_without_wait_for (module : AnsibleModule) (commands : list command_dict)
    (warnings : list string) (w w' : W) (responses : list R) :
  default [] (wait_for module) = [] ->
  0 <= retries module ->
  parse_commands module [] = inr (commands, warnings) ->
  run_commands commands w = (inr responses, w') ->
  exists st,
    main (enough_fuel module) module w = Some (ExitJson false warnings responses, Some st)
    /\ attempts st = 1%nat /\ slept st = [] /\ st_world st = w'.
Proof.
  intros Hwait Hretries Hparse Hrun. unfold main, enough_fuel.
  rewrite Hparse, Hwait. cbn [new_conditionals while_loop st_retries].
  destruct (Z.leb_spec 0 (retries module)); [|lia].
  unfold loop_body. cbn [st_world st_conditionals]. rewrite Hrun.
  cbn [check_conditionals]. eexists. split; [reflexivity|]. repeat split.
Qed.

(** X22: with a negative number of retries nothing is sent: the run
    fails with every conditional of [wait_for] listed when there is one,
    and ends on the [NameError] of the unbound [responses] when there is
    none. *)
Theorem main_negative_retries (module : AnsibleModule) (w : W)
    (conditionals : list (Conditional R)) :
  retries module < 0 ->
  new_conditionals 0 (default [] (wait_for module)) = inr conditionals ->
  exists st,
    main (enough_fuel module) module w =
      Some (match default [] (wait_for module) with
            | [] => Uncaught (NameError "responses")
            | _ :: _ =>
                FailJson "One or more conditional statements have not been satisfied"
                  (Some (default [] (wait_for module)))
            end, Some st)
    /\ attempts st = 0%nat /\ st_world st = w.
Proof.
  intros Hretries Hnew. unfold main, enough_fuel.
  destruct (parse_commands_returns module []) as (commands & added & -> & _).
  rewrite Hnew. cbn [while_loop st_retries].
  destruct (Z.leb_spec 0 (retries module)); [lia|].
  exists {| st_retries := retries module; st_conditionals := conditionals;
            st_responses := None; st_world := w; attempts := 0; slept := [] |}.
  split; [|split; reflexivity].
  apply new_conditionals_spec in Hnew as (_ & Hraw & _).
  unfold after_loop. cbn [st_conditionals st_responses]. rewrite <- Hraw.
  destruct conditionals; reflexivity.
Qed.

Lemma new_conditionals_malformed (pre : list string) (c : string) (post : list string)
    (exc : exn) :
  Forall (fun s => exists f, parse_conditional s = inr f) pre ->
  parse_conditional c = inl exc ->
  forall next, new_conditionals next (pre ++ c :: post) = inl exc.
Proof.
  intros Hpre Hc. induction Hpre as [|s pre [f Hs] _ IH]; intros next;
    cbn [app new_conditionals].
  - now rewrite Hc.
  - now rewrite Hs, IH.
Qed.

(** X23: the first conditional of [wait_for] whose construction raises
    ends the run before anything is sent: with [fail_json] and the text
    of the exception when it is an [AttributeError], that of an operator
    the constructor does not know, and with the exception itself, which
    [main] does not catch, when it is of another kind, such as the
    [IndexError] of a conditional without words. *)
Theorem main_malformed_conditional (fuel : nat) (module : AnsibleModule) (w : W)
    (pre : list string) (c : string) (post : list string) (exc : exn) :
  wait_for module = Some (pre ++ c :: post)%list ->
  Forall (fun s => exists f, parse_conditional s = inr f) pre ->
  parse_conditional c = inl exc ->
  main fuel module w =
    Some (match exc with
          | AttributeError msg => FailJson msg None
          | _ => Uncaught exc
          end, None).
Proof.
  intros Hwait Hpre Hc. unfold main.
  destruct (parse_commands_returns module []) as (commands & added & -> & _).
  rewrite Hwait. cbn [default from_option id].
  rewrite (new_conditionals_malformed pre c post exc Hpre Hc).
  destruct exc; reflexivity.
Qed.

(** X24: a batch that fails ends the run at once with the message of the
    failure and no list of conditions: no pause is taken and no retry is
    made, however many are allowed. *)
Theorem main_batch_failure (module : AnsibleModule) (commands : list command_dict)
    (warnings : list string) (conditionals : list (Conditional R))
    (w w' : W) (msg : string) :
  0 <= retries module ->
  parse_commands module [] = inr (commands, warnings) ->
  new_conditionals 0 (default [] (wait_for module)) = inr conditionals ->
  run_commands commands w = (inl msg, w') ->
  exists st,
    main (enough_fuel module) module w = Some (FailJson msg None, Some st)
    /\ attempts st = 1%nat /\ slept st = [] /\ st_world st = w'.
Proof.
  intros Hretries Hparse Hnew Hrun. unfold main, enough_fuel.
  rewrite Hparse, Hnew. cbn [while_loop st_retries].
  destruct (Z.leb_spec 0 (retries module)); [|lia].
  unfold loop_body. cbn [st_world]. rewrite Hrun.
  eexists. split; [reflexivity|]. repeat split.
Qed.

End RetryLoopMore.

Section RetryLoopInvariants.
Import Py Cliconf AosCommand.
Context {W R : Type} `{!Runner W R} `{!ConditionalParser R}.

Lemma remove_sublist {A} (eqb : A -> A -> bool) (x : A) (l l' : list A) :
  remove eqb x l = Some l' -> l' `sublist_of` l.
Proof.
  revert l'. induction l as [|y l IH]; intros l'; cbn [remove]; [discriminate|].
  destruct (eqb y x).
  - intros [= <-]. now apply sublist_cons.
  - destruct (remove eqb x l) as [l0|]; [|discriminate].
    intros [= <-]. apply sublist_skip, IH. reflexivity.
Qed.

(** A pass keeps the pending conditionals in their order and adds none. *)
Lemma check_conditionals_sublist (match_ : string) (responses : list R)
    (items : list (Conditional R)) :
  forall conditionals pending : list (Conditional R),
  check_conditionals match_ responses items conditionals = inr pending ->
  pending `sublist_of` conditionals.
Proof.
  induction items as [|item rest IH]; intros conditionals pending;
    cbn [check_conditionals].
  - now intros [= <-].
  - destruct (call item responses); [|apply IH].
    destruct (String.eqb match_ "any"); [intros [= <-]; apply sublist_nil_l|].
    destruct (remove _ item conditionals) as [l|] eqn:E; [|discriminate].
    intros H. transitivity l; [now apply IH | eapply remove_sublist, E].
Qed.

Lemma loop_body_sublist (module : AnsibleModule) (commands : list command_dict)
    (st : loop_state) :
  st_conditionals (loop_body module commands st).2 `sublist_of` st_conditionals st.
Proof.
  unfold loop_body. destruct (run_commands commands (st_world st)) as [[msg|rs] w];
    [reflexivity|].
  destruct (check_conditionals _ _ _ _) as [e|pending] eqn:E; [reflexivity|].
  apply check_conditionals_sublist in E.
  destruct pending; [exact E|]. destruct (interval module <? 0); exact E.
Qed.

Lemma while_loop_sublist (module : AnsibleModule) (commands : list command_dict) :
  forall (fuel : nat) (st st' : loop_state) (o : option (outcome R)),
  while_loop fuel module commands st = Some (o, st') ->
  st_conditionals st' `sublist_of` st_conditionals st
  /\ forall msg failed, o <> Some (FailJson msg (Some failed)).
Proof.
  induction fuel as [|fuel IH]; intros st st' o; cbn [while_loop]; [discriminate|].
  destruct (0 <=? st_retries st); [|intros [= <- <-]; split; [reflexivity | discriminate]].
  pose proof (loop_body_sublist module commands st) as Hsub.
  assert (Hexit : forall o', (loop_body module commands st).1 = Exit o' ->
                  forall msg failed, o' <> FailJson msg (Some failed)).
  { unfold loop_body. destruct (run_commands commands (st_world st)) as [[m|rs] w].
    - intros o' [= <-]. discriminate.
    - destruct (check_conditionals _ _ _ _) as [e|[|c l]];
        try (intros o' [= <-]; discriminate); try discriminate.
      destruct (interval module <? 0); [intros o' [= <-]|]; discriminate. }
  destruct (loop_body module commands st) as [[| |o'] st1]; cbn [fst snd] in *.
  - intros H. apply IH in H as [H1 H2]. split; [now transitivity (st_conditionals st1)|].
    exact H2.
  - intros [= <- <-]. split; [exact Hsub | discriminate].
  - intros [= <- <-]. split; [exact Hsub|]. intros msg failed [= E].
    exact (Hexit o' eq_refl msg failed E).
Qed.

(** X25: the conditions a run reports as failed are conditionals of
    [wait_for], in the order of [wait_for]: the loop takes conditionals out
    of the pending list and never puts one in. *)
Theorem main_failed_conditions (fuel : nat) (module : AnsibleModule) (w : W)
    (msg : string) (failed_conditions : list string) (st : option loop_state) :
  main fuel module w = Some (FailJson msg (Some failed_conditions), st) ->
  failed_conditions `sublist_of` default [] (wait_for module).
Proof.
  unfold main. destruct (parse_commands module []) as [e|[commands warnings]];
    [discriminate|].
  destruct (new_conditionals 0 _) as [exc|conditionals] eqn:Hnew;
    [destruct exc; discriminate|].
  destruct (while_loop fuel module commands _) as [[[o|] st']|] eqn:Hloop;
    [| |discriminate].
  - intros [= -> _]. apply while_loop_sublist in Hloop as [_ H].
    now destruct (H msg failed_conditions).
  - apply while_loop_sublist in Hloop as [Hsub _]. cbn [st_conditionals] in Hsub.
    unfold after_loop. destruct (st_conditionals st') as [|c l] eqn:E.
    + destruct (st_responses st'); discriminate.
    + intros [= _ <- _]. apply new_conditionals_spec in Hnew as (_ & <- & _).
      exact (fmap_sublist raw _ _ Hsub).
Qed.

(** While no batch meets a pending conditional, the loop goes on until
    the retries are used up, a batch and a pause each turn. *)
Lemma while_loop_exhaust (module : AnsibleModule) (commands : list command_dict)
    (Inv : W -> Prop) (conditionals : list (Conditional R)) :
  conditionals <> [] -> 0 <= interval module ->
  (forall w, Inv w -> exists r w',
      run_commands commands w = (inr r, w') /\ Inv w'
      /\ check_conditionals (match_ module) r conditionals conditionals
         = inr conditionals) ->
  forall (k : nat) (st : loop_state) (fuel : nat),
  Inv (st_world st) -> st_conditionals st = conditionals ->
  st_retries st = Z.of_nat k - 1 -> (k < fuel)%nat ->
  exists st',
    while_loop fuel module commands st = Some (None, st')
    /\ attempts st' = (attempts st + k)%nat
    /\ slept st' = (slept st ++ replicate k (interval module))%list
    /\ st_conditionals st' = conditionals.
Proof.
  intros Hne Hint Hstep. induction k as [|k IH]; intros st fuel Hinv Hc Hr Hfuel;
    (destruct fuel as [|fuel]; [lia|]); cbn [while_loop].
  - destruct (Z.leb_spec 0 (st_retries st)); [lia|].
    exists st. rewrite Nat.add_0_r, app_nil_r. now repeat split.
  - destruct (Z.leb_spec 0 (st_retries st)); [|lia].
    destruct (Hstep _ Hinv) as (r & w' & Hrun & Hinv' & Hcheck).
    rewrite (loop_body_step module commands st r w' conditionals Hrun);
      [|rewrite Hc; exact Hcheck | exact Hint].
    destruct conditionals as [|c l] eqn:E; [contradiction|]. rewrite <- E in *.
    edestruct (IH {| st_retries := st_retries st - 1; st_conditionals := conditionals;
                     st_responses := Some r; st_world := w';
                     attempts := S (attempts st);
                     slept := slept st ++ [interval module] |} fuel)
      as (st' & Hloop & Ha & Hs & Hc');
      [exact Hinv' | reflexivity | cbn [st_retries]; lia | lia |].
    exists st'. split; [exact Hloop|]. cbn [attempts slept] in *.
    split; [lia|]. split; [|exact Hc']. rewrite Hs, <- app_assoc. reflexivity.
Qed.

(** X26: when no batch meets a conditional, the run sends [retries + 1]
    batches, pauses after each of them, the last one included, and then
    fails with every conditional of [wait_for] listed. *)
Theorem main_exhausts_retries (module : AnsibleModule) (commands : list command_dict)
    (warnings : list string) (conditionals : list (Conditional R))
    (Inv : W -> Prop) (w : W) :
  0 <= retries module -> 0 <= interval module ->
  parse_commands module [] = inr (commands, warnings) ->
  new_conditionals 0 (default [] (wait_for module)) = inr conditionals ->
  conditionals <> [] ->
  Inv w ->
  (forall w, Inv w -> exists r w',
      run_commands commands w = (inr r, w') /\ Inv w'
      /\ check_conditionals (match_ module) r conditionals conditionals
         = inr conditionals) ->
  exists st,
    main (enough_fuel module) module w =
      Some (FailJson "One or more conditional statements have not been satisfied"
              (Some (default [] (wait_for module))), Some st)
    /\ Z.of_nat (attempts st) = retries module + 1
    /\ slept st = replicate (Z.to_nat (retries module + 1)) (interval module).
Proof.
  intros Hretries Hint Hparse Hnew Hne Hinv Hstep. unfold main, enough_fuel.
  rewrite Hparse, Hnew.
  edestruct (while_loop_exhaust module commands Inv conditionals Hne Hint Hstep
               (Z.to_nat (retries module + 1))
               {| st_retries := retries module; st_conditionals := conditionals;
                  st_responses := None; st_world := w; attempts := 0; slept := [] |}
               (S (Z.to_nat (retries module + 1))))
    as (st' & -> & Ha & Hs & Hc);
    [exact Hinv | reflexivity | cbn [st_retries]; lia | lia |].
  exists st'. cbn [attempts slept app] in *. split; [|split; [lia | exact Hs]].
  unfold after_loop. rewrite Hc.
  apply new_conditionals_spec in Hnew as (_ & <- & _).
  destruct conditionals; [contradiction | reflexivity].
Qed.

End RetryLoopInvariants.

(** ** Concrete runs of the further properties *)

Lemma vlan_parts_range_witness :
  Utils.vlan_parts ["5-3"; "7"] [] = Utils.vlan_parts ["7"] [].
Proof.
  exact (proj2 (proj2 (vlan_parts_range "5" "3" 5 3 ["7"] []
                         eq_refl eq_refl eq_refl eq_refl)) eq_refl).
Defined.

Lemma vlan_parts_malformed_witness :
  exists msg, Utils.vlan_parts ["-5"] [] = inl (Py.ValueError msg).
Proof. exact (proj2 (vlan_parts_malformed [] []) "5" eq_refl). Defined.

Lemma vlan_range_to_list_elements_witness :
  exists l,
    Utils.vlan_range_to_list Utils.cpython_small_set (Utils.VStr "1,8,1") = inr l
    /\ NoDup l /\ forall x, x ∈ l <-> x ∈ [1; 8; 1].
Proof.
  exact (vlan_range_to_list_elements Utils.cpython_small_set (Utils.VStr "1,8,1")
           [1; 8; 1] cpython_small_set_contract eq_refl eq_refl).
Defined.

Lemma run_commands_aligned_witness :
  length [Cliconf.RText "vlan 10"; Cliconf.RJson true] = 2%nat
  /\ exists calls,
       [Cliconf.of_command "show vlan"; Cliconf.of_command "show chassis | json"]
       = ([] ++ calls)%list
       /\ Forall2 (fun cmd kwargs =>
                     Cliconf.command_text (Cliconf.as_dict cmd)
                     = inr (Cliconf.command kwargs)
                     /\ kwargs = Cliconf.with_command (Cliconf.as_dict cmd)
                                   (Cliconf.command kwargs))
            [Cliconf.CmdStr "show vlan";
             Cliconf.CmdMap
               {| Cliconf.command := "show chassis"; Cliconf.output := Some "json";
                  Cliconf.version := Some "latest"; Cliconf.prompt := None;
                  Cliconf.answer := None; Cliconf.newline := None;
                  Cliconf.sendonly := None; Cliconf.check_all := None |}]
            calls.
Proof.
  exact (run_commands_aligned (J := bool) true
           [Cliconf.CmdStr "show vlan";
            Cliconf.CmdMap
              {| Cliconf.command := "show chassis"; Cliconf.output := Some "json";
                 Cliconf.version := Some "latest"; Cliconf.prompt := None;
                 Cliconf.answer := None; Cliconf.newline := None;
                 Cliconf.sendonly := None; Cliconf.check_all := None |}]
           [Cliconf.RText "vlan 10"; Cliconf.RJson true]
           (Scenario.connect [inr " vlan 10 "; inr "true"])
           {| Cliconf.device := [];
              Cliconf.sent := [Cliconf.of_command "show vlan";
                               Cliconf.of_command "show chassis | json"] |}
           eq_refl).
Defined.

Lemma run_commands_unchecked_total_witness :
  exists rs c',
    Cliconf.run_commands (J := bool)
      (Some [Cliconf.CmdStr "show vlan"; Cliconf.CmdStr "show chassis"]) false
      {| Cliconf.device := tt; Cliconf.sent := [] |} = (inr rs, c')
    /\ length rs = 2%nat.
Proof.
  apply (run_commands_unchecked_total (J := bool)).
  - repeat constructor; eexists; reflexivity.
  - intros kwargs d e [= <-]. eexists _, _. reflexivity.
Defined.

Lemma get_config_invalid_format_witness :
  Cliconf.get_config "running" None "xml" (Scenario.connect [])
  = (inl (Py.ValueError "'format' value xml is invalid. Valid values are text,json"),
     Scenario.connect []).
Proof.
  exact (get_config_invalid_format "running" None "xml" (Scenario.connect []) eq_refl).
Defined.

Lemma edit_config_success_witness :
  ["vlan 10"; "vlan 20"]
  = (fun line => Cliconf.command (Cliconf.as_dict line))
    <$> Py.to_list (Some [Cliconf.CmdStr "vlan 10"; Cliconf.CmdStr "vlan 20"])
  /\ length ["ok"; ""] = 2%nat
  /\ [Cliconf.of_command "vlan 10"; Cliconf.of_command "vlan 20"]
     = ([] ++ (Cliconf.as_dict
               <$> Py.to_list (Some [Cliconf.CmdStr "vlan 10"; Cliconf.CmdStr "vlan 20"])))%list.
Proof.
  exact (edit_config_success
           (Some [Cliconf.CmdStr "vlan 10"; Cliconf.CmdStr "vlan 20"]) false false
           (Scenario.connect [inr "ok"])
           {| Cliconf.device := [];
              Cliconf.sent := [Cliconf.of_command "vlan 10"; Cliconf.of_command "vlan 20"] |}
           {| Cliconf.resp_request := ["vlan 10"; "vlan 20"];
              Cliconf.resp_response := ["ok"; ""] |} eq_refl).
Defined.

Lemma edit_config_failure_witness :
  Cliconf.edit_config
    (Some [Cliconf.CmdStr "vlan 10"; Cliconf.CmdStr "vlan 20"; Cliconf.CmdStr "vlan 30"])
    false false (Scenario.connect [inr "ok"; inl (Py.ValueError "refused")])
  = (inl (Py.ValueError "refused"),
     {| Cliconf.device := [];
        Cliconf.sent := [Cliconf.of_command "vlan 10"; Cliconf.of_command "vlan 20"] |}).
Proof.
  exact (edit_config_failure [Cliconf.CmdStr "vlan 10"] (Cliconf.CmdStr "vlan 20")
           [Cliconf.CmdStr "vlan 30"] false false
           (Scenario.connect [inr "ok"; inl (Py.ValueError "refused")])
           {| Cliconf.device := [inl (Py.ValueError "refused")];
              Cliconf.sent := [Cliconf.of_command "vlan 10"] |}
           {| Cliconf.resp_request := ["vlan 10"]; Cliconf.resp_response := ["ok"] |}
           (Py.ValueError "refused") eq_refl eq_refl).
Defined.

Lemma get_device_info_cached_witness :
  exists info self',
    Cliconf.get_device_info
      (Scenario.fresh_plugin [inr "8.9.R3 /flash/working"; inr "sw1, OS6900"])
    = (inr info, self')
    /\ Cliconf.get_device_info self' = (inr info, self').
Proof.
  eexists _, _. split; [reflexivity|].
  apply (proj1 (get_device_info_cached
                  (Scenario.fresh_plugin [inr "8.9.R3 /flash/working"; inr "sw1, OS6900"])
                  _)).
  reflexivity.
Defined.

Lemma get_device_info_first_witness :
  exists info self',
    Cliconf.get_device_info
      (Scenario.fresh_plugin [inr "8.9.R3 /flash/working"; inr "sw1, OS6900"])
    = (inr info, self')
    /\ info !! "network_os" = Some "aos"
    /\ Cliconf._device_info self' = info
    /\ length (Cliconf.sent (Cliconf._conn self')) = 2%nat.
Proof.
  eexists _, _. split; [reflexivity|].
  edestruct (get_device_info_first
               (Scenario.fresh_plugin [inr "8.9.R3 /flash/working"; inr "sw1, OS6900"]))
    as (H1 & H2 & H3); [reflexivity | reflexivity |].
  split; [exact H1|]. split; [exact H2|]. rewrite H3. reflexivity.
Defined.

Lemma get_device_info_unbound_path_witness :
  Cliconf.get_device_info (Scenario.fresh_plugin [inr "8.9.R3 system"])
  = (inl (Py.NameError "path"),
     {| Cliconf._device_info := ∅;
        Cliconf._conn :=
          {| Cliconf.device := [];
             Cliconf.sent :=
               [{| Cliconf.command := "show microcode"; Cliconf.output := None;
                   Cliconf.version := None; Cliconf.prompt := None;
                   Cliconf.answer := None; Cliconf.newline := Some true;
                   Cliconf.sendonly := Some false; Cliconf.check_all := Some false |}] |} |}).
Proof.
  exact (get_device_info_unbound_path (Scenario.fresh_plugin [inr "8.9.R3 system"])
           "8.9.R3 system" (fun _ => "8.9.R3") eq_refl eq_refl eq_refl eq_refl).
Defined.

Lemma get_device_info_hostname_witness :
  exists info self',
    Cliconf.get_device_info
      (Scenario.fresh_plugin [inr "8.9.R3 /flash/working"; inr "sw1, OS6900"])
    = (inr info, self')
    /\ info !! "network_os_hostname" = Some "sw1"
    /\ "sw1" <> "sw" ++ ",".
Proof.
  eexists _, _. split; [reflexivity|]. split; [reflexivity|].
  eapply (get_device_info_hostname
            (Scenario.fresh_plugin [inr "8.9.R3 /flash/working"; inr "sw1, OS6900"])
            _ _ "sw1" "sw"); reflexivity.
Defined.

Lemma cli_get_config_cached_witness :
  exists cfg self',
    ModuleUtils.get_config None (Scenario.fresh_cli [inr " vlan 10 "]) = (inr cfg, self')
    /\ ModuleUtils.get_config None self' = (inr cfg, self')
    /\ ModuleUtils.get_config (Some []) self' = (inr cfg, self').
Proof.
  eexists _, _. split; [reflexivity|].
  apply (proj1 (cli_get_config_cached None (Scenario.fresh_cli [inr " vlan 10 "]) _)).
  reflexivity.
Defined.

Lemma cli_get_config_stripped_witness :
  exists result self',
    ModuleUtils.get_config None (Scenario.fresh_cli [inr " vlan 10 "]) = (result, self')
    /\ (forall cmd cfg,
           ModuleUtils._device_configs self' !! cmd = Some cfg -> Py.strip cfg = cfg)
    /\ (forall cfg, result = inr cfg -> Py.strip cfg = cfg).
Proof.
  eexists _, _. split; [reflexivity|].
  apply (cli_get_config_stripped None (Scenario.fresh_cli [inr " vlan 10 "])).
  - intros cmd cfg H. unfold Scenario.fresh_cli in H.
    cbn [ModuleUtils._device_configs] in H. rewrite lookup_empty in H. discriminate.
  - reflexivity.
Defined.

Lemma load_config_edited_witness :
  exists resp warnings self',
    ModuleUtils.load_config (Some [Cliconf.CmdStr "vlan 10"]) false false
      (Scenario.fresh_cli [inr "ok"]) = (inr (ModuleUtils.Edited resp, warnings), self')
    /\ warnings = []
    /\ Cliconf.resp_request resp = ["vlan 10"]
    /\ Cliconf.sent (ModuleUtils._connection self') = [Cliconf.of_command "vlan 10"].
Proof.
  eexists _, _, _. split; [reflexivity|].
  edestruct (load_config_edited (Some [Cliconf.CmdStr "vlan 10"]) false false
               (Scenario.fresh_cli [inr "ok"])) as (H1 & H2 & H3 & _); [reflexivity|].
  split; [exact H1|]. split; [exact H2 | exact H3].
Defined.

Lemma main_without_wait_for_witness :
  exists st,
    AosCommand.main (AosCommand.enough_fuel Scenario.check_mode_module)
      Scenario.check_mode_module [inr ["vlan 10"; "chassis 1"]]
    = Some (AosCommand.ExitJson false
              ["Only show commands are supported when using check mode, not executing write memory"]
              ["vlan 10"; "chassis 1"], Some st)
    /\ AosCommand.attempts st = 1%nat /\ AosCommand.slept st = []
    /\ AosCommand.st_world st = [].
Proof.
  refine (main_without_wait_for (R := string) Scenario.check_mode_module
            [Cliconf.of_command "show vlan"; Cliconf.of_command "show chassis"]
            ["Only show commands are supported when using check mode, not executing write memory"]
            [inr ["vlan 10"; "chassis 1"]] [] ["vlan 10"; "chassis 1"]
            eq_refl _ eq_refl eq_refl).
  discriminate.
Defined.

Lemma main_negative_retries_witness :
  exists st,
    AosCommand.main (AosCommand.enough_fuel Scenario.negative_retries)
      Scenario.negative_retries [inr ["port Up"]]
    = Some (AosCommand.FailJson
              "One or more conditional statements have not been satisfied"
              (Some ["Up"]), Some st)
    /\ AosCommand.attempts st = 0%nat
    /\ AosCommand.st_world st = [inr ["port Up"]].
Proof.
  exact (main_negative_retries (R := string) Scenario.negative_retries
           [inr ["port Up"]]
           [{| AosCommand.ident := 0; AosCommand.raw := "Up";
               AosCommand.call := fun responses =>
                 match responses with
                 | r :: _ => Py.contains "Up" r
                 | [] => false
                 end |}]
           eq_refl eq_refl).
Defined.

Lemma main_malformed_conditional_witness :
  AosCommand.main (ConditionalParser0 := Scenario.strict_conditionals) 5
    Scenario.unknown_operator [inr ["port Up"]]
  = Some (AosCommand.FailJson "unknown operator: foo" None, None)
  /\ AosCommand.main (ConditionalParser0 := Scenario.strict_conditionals) 5
      Scenario.empty_wait [inr ["port Up"]]
    = Some (AosCommand.Uncaught (Py.IndexError "list index out of range"), None).
Proof.
  split.
  - refine (main_malformed_conditional (R := string)
              (ConditionalParser0 := Scenario.strict_conditionals) 5
              Scenario.unknown_operator [inr ["port Up"]]
              ["result[0] contains Up"] "result[0] foo Up" []
              (Py.AttributeError "unknown operator: foo") eq_refl _ eq_refl).
    repeat constructor. eexists. reflexivity.
  - refine (main_malformed_conditional (R := string)
              (ConditionalParser0 := Scenario.strict_conditionals) 5
              Scenario.empty_wait [inr ["port Up"]]
              ["result[0] contains Up"] "" ["result[0] contains Ready"]
              (Py.IndexError "list index out of range") eq_refl _ eq_refl).
    repeat constructor. eexists. reflexivity.
Defined.

Lemma main_batch_failure_witness :
  exists st,
    AosCommand.main (AosCommand.enough_fuel Scenario.two_waits) Scenario.two_waits
      [inl "timeout"]
    = Some (AosCommand.FailJson "timeout" None, Some st)
    /\ AosCommand.attempts st = 1%nat /\ AosCommand.slept st = []
    /\ AosCommand.st_world st = [].
Proof.
  refine (main_batch_failure (R := string) Scenario.two_waits
            [Cliconf.of_command "show interfaces"] [] _ [inl "timeout"] [] "timeout"
            _ eq_refl eq_refl eq_refl).
  discriminate.
Defined.

Lemma main_failed_conditions_witness :
  ["Up"] `sublist_of` default [] (AosCommand.wait_for Scenario.one_wait).
Proof.
  eapply (main_failed_conditions (R := string)
            (AosCommand.enough_fuel Scenario.one_wait) Scenario.one_wait
            [inr ["port Down"]]).
  reflexivity.
Defined.

Lemma main_exhausts_retries_witness :
  exists st,
    AosCommand.main (AosCommand.enough_fuel Scenario.two_waits) Scenario.two_waits []
    = Some (AosCommand.FailJson
              "One or more conditional statements have not been satisfied"
              (Some ["Up"; "Ready"]), Some st)
    /\ Z.of_nat (AosCommand.attempts st) = 2 + 1
    /\ AosCommand.slept st = [0; 0; 0].
Proof.
  refine (main_exhausts_retries (R := string) Scenario.two_waits
            [Cliconf.of_command "show interfaces"] [] _ (fun w => w = []) []
            _ _ eq_refl eq_refl _ eq_refl _).
  - discriminate.
  - discriminate.
  - discriminate.
  - intros w ->. exists [], []. repeat split.
Defined.

(** ** The module on top of the plugin *)

Section FullStack.
Import Py Cliconf ModuleUtils AosCommand.
Context {D J : Type} `{!Transport D} `{!JsonLoads J} `{!RpcError} `{!ToCommand}
  `{!ConditionalParser (response J)}.

(** X27: when the first command of the batch asks for an output that is
    set and not valid, the run of the module on top of the plugin fails on
    its first batch with the text of the plugin's [ValueError], without a
    retry and without a call to the device. *)
Theorem main_invalid_output (module : AnsibleModule) (commands : list command_dict)
    (warnings : list string) (conditionals : list (Conditional (response J)))
    (self : Cli D) (d : command_dict) (o : string) (post : list cmd_arg) :
  0 <= retries module ->
  parse_commands module [] = inr (commands, warnings) ->
  new_conditionals 0 (default [] (wait_for module)) = inr conditionals ->
  to_command commands = CmdMap d :: post ->
  output d = Some o -> o <> "" -> mem o ["text"; "json"] = false ->
  exists st,
    main (enough_fuel module) module self =
      Some (FailJson
              (error_text (ValueError ("'output' value " ++ o
                                       ++ " is invalid. Valid values are text,json")))
              None, Some st)
    /\ attempts st = 1%nat
    /\ _connection (st_world st) = _connection self
    /\ _device_configs (st_world st) = _device_configs self.
Proof.
  intros Hretries Hparse Hnew Hto Ho Hne Hmem. unfold main, enough_fuel.
  rewrite Hparse, Hnew. cbn [while_loop st_retries].
  destruct (Z.leb_spec 0 (retries module)); [|lia].
  unfold loop_body. cbn [st_world].
  unfold AosCommand.run_commands, cli_runner, ModuleUtils.run_commands,
    Cliconf.run_commands.
  rewrite Hto, run_commands_loop_cons.
  rewrite (run_command_invalid_output true d o (_connection self) Ho Hne Hmem).
  eexists. split; [reflexivity|]. repeat split.
Qed.

End FullStack.

Lemma main_invalid_output_witness :
  exists st,
    AosCommand.main (R := Cliconf.response bool)
      (AosCommand.enough_fuel Scenario.xml_module) Scenario.xml_module
      (Scenario.fresh_cli [inr "ok"])
    = Some (AosCommand.FailJson
              "'output' value xml is invalid. Valid values are text,json" None, Some st)
    /\ AosCommand.attempts st = 1%nat
    /\ ModuleUtils._connection (AosCommand.st_world st) = Scenario.connect [inr "ok"]
    /\ ModuleUtils._device_configs (AosCommand.st_world st) = ∅.
Proof.
  refine (main_invalid_output (J := bool)
            Scenario.xml_module [Scenario.xml_command] [] []
            (Scenario.fresh_cli [inr "ok"]) Scenario.xml_command "xml" []
            _ eq_refl eq_refl eq_refl eq_refl _ eq_refl); discriminate.
Defined.
